(** * bibselv — FBS plugin (engine/plugins/fbs/fbs.js)

    A shallow embedding of the resilience layer of the FBS plugin: the
    Facade methods, the online checker [checkOnlineState], the request
    handlers registered on the bus with their offline fallback, and the
    event names used to correlate requests with responses.

    Asynchronous code is embedded continuation by continuation: every
    JavaScript callback is one Rocq function with the name of the code it
    translates, and the effects it performs on the bus are returned as a
    list, in program order. *)

From stdpp Require Import base numbers list strings gmap fin_maps.

Local Open Scope string_scope.
Local Open Scope list_scope.

(** ** JavaScript values *)

Module JS.

(** The primitive values the plugin inspects.  Numbers are the integral
    timestamps, counters and delays the plugin computes with. *)
Inductive jsval : Type :=
| JUndefined
| JNull
| JBool (b : bool)
| JNum (n : Z)
| JStr (s : string).

(** ToBoolean, as used by [if (v)], [v || w], [v && w] and [!!v]. *)
Definition truthy (v : jsval) : bool :=
  match v with
  | JUndefined | JNull => false
  | JBool b => b
  | JNum n => negb (n =? 0)%Z
  | JStr s => negb (String.eqb s "")
  end.

(** [a || b] *)
Definition or (a b : jsval) : jsval := if truthy a then a else b.

(** [v === false] *)
Definition is_false (v : jsval) : bool :=
  match v with JBool false => true | _ => false end.

(** [v === 'Y'] and the like. *)
Definition is_str (s : string) (v : jsval) : bool :=
  match v with JStr t => String.eqb t s | _ => false end.

(** A plain object, given by its own properties. *)
Abbreviation object := (gmap string jsval).

(** [Object.prototype.hasOwnProperty.call(o, k)] *)
Definition hasOwnProperty (o : object) (k : string) : bool :=
  bool_decide (is_Some (o !! k)).

(** [o.k]: reading an absent property gives [undefined]. *)
Definition get (o : object) (k : string) : jsval :=
  default JUndefined (o !! k).

(** An [Error] object; the plugin only ever reads its [message]. *)
Record Error : Type := mkError { message : string }.

(** Outcome of evaluating code that may throw a [TypeError]. *)
Inductive result (A : Type) : Type :=
| Ok (a : A)
| Throw.
Arguments Ok {A} a.
Arguments Throw {A}.

#[global] Instance result_ret : MRet result := fun A a => Ok a.

#[global] Instance result_bind : MBind result := fun A B k r =>
  match r with Ok a => k a | Throw => Throw end.

End JS.

(** ** Data exchanged over the bus *)

Module Data.
Import JS.

(** The [onlineState] object of the plugin (fbs.js, 322-329). *)
Record OnlineState : Type := mkOnlineState {
  online : bool;
  threshold : Z;
  successfulOnlineChecks : Z;
  onlineTimeout : Z;
  offlineTimeout : Z;
  ensureOnlineCheckTimeout : Z
}.

(** The [data] object of a [fbs.checkout] / [fbs.checkin] request.  A
    property the handler tests with [hasOwnProperty] is an [option];
    properties that are only read are [JUndefined] when absent. *)
Record Request : Type := mkRequest {
  username : jsval;
  password : jsval;
  itemIdentifier : string;
  queued : jsval;
  noBlockDueDate : option jsval;
  noBlock : option jsval;
  transactionDate : jsval;
  checkedInDate : jsval;
  transaction : jsval;
  busEvent : string;
  errorEvent : string;
  file : jsval
}.

(** The provisional result [material] (526-536, 611-620). *)
Record Material : Type := mkMaterial {
  m_itemIdentifier : string;
  m_offline : bool;
  m_ok : string;
  m_itemProperties_id : string;
  m_itemProperties_title : string;
  m_dueDate : option jsval
}.

(** The [obj] of a [storage.append] request; the check-in record has no
    [username] and [password] properties. *)
Record OfflineRecord : Type := mkOfflineRecord {
  r_date : jsval;
  r_action : string;
  r_username : option jsval;
  r_password : option jsval;
  r_itemIdentifier : string
}.

(** The payload of [storage.append] (551-564, 635-646). *)
Record AppendRequest : Type := mkAppendRequest {
  a_type : string;
  a_name : jsval;
  a_obj : OfflineRecord;
  a_lockFile : bool;
  a_busEvent : string;
  a_errorEvent : string
}.

(** What the plugin passes to [bus.emit] after the event name.  Where the
    plugin passes an object it goes on mutating ([onlineState], [data]),
    the payload records the object as it is when it is published. *)
Inductive payload : Type :=
| PConfigRequest (busEvent errorEvent : string)
| PTimestamp (timestamp : Z)
| PResults (timestamp : Z) (results : object)
| PPatron (timestamp : Z) (patron : jsval)
| PResult (timestamp : Z) (result : jsval)
| PProvisional (timestamp : Z) (result : Material)
| PError (err : Error)
| PAppend (req : AppendRequest)
| PJob (data : Request)
| PActionResult (name : string) (failed : bool)
| POnline (timestamp : Z) (online : OnlineState)
| PLog (msg : string)
| PStored.

End Data.

(** ** The event bus *)

Module Bus.
Import JS Data.

(** The closures the plugin subscribes with [bus.once]. *)
Inductive handler : Type :=
| CreateLoaded                                     (* 52-54 *)
| CreateError                                      (* 56-58 *)
| OfflineStored (data : Request) (material : Material)   (* 538-543, 622-627 *)
| OfflineError (data : Request).                   (* 545-547, 629-631 *)

(** The calls a piece of plugin code makes on the bus, in program order. *)
Inductive op : Type :=
| Once (name : string) (h : handler)
| Emit (name : string) (p : payload).

Record state : Type := mkState {
  listeners : gmap string (list handler);
  log : list (string * payload)
}.

Definition empty : state := mkState ∅ [].

(** What a subscribed closure emits when it is called with [received] at
    time [now].  The two closures of [FBS.create] settle a promise and
    emit nothing. *)
Definition handler_run (now : Z) (h : handler) (received : payload)
  : list (string * payload) :=
  match h with
  | CreateLoaded | CreateError => []
  | OfflineStored data material => [(busEvent data, PProvisional now material)]
  | OfflineError data => [(errorEvent data, received)]
  end.

(** Modelled from the spec: the bus plugin ([imports.bus]) is not among
    the sources.  It is the publish/subscribe primitive of the Correlation
    Bus; [once] subscribes a one-shot handler under an event name, after
    the handlers already subscribed under it. *)
Definition once (name : string) (h : handler) (b : state) : state :=
  mkState (<[name := default [] (listeners b !! name) ++ [h]]> (listeners b))
          (log b).

(** Modelled from the spec: [emit] of the bus plugin ([imports.bus], not
    among the sources) publishes an event to the handlers subscribed
    under exactly that name, in subscription order; a one-shot handler is
    unsubscribed when the event it waits for is published.  [log] records
    every publication, in order; [fuel] bounds the nesting of publications
    made from inside handlers. *)
Fixpoint emit (fuel : nat) (now : Z) (name : string) (p : payload)
    (b : state) : state :=
  let logged := log b ++ [(name, p)] in
  match fuel with
  | O => mkState (listeners b) logged
  | S fuel' =>
      foldl (fun acc h =>
               foldl (fun acc' e => emit fuel' now e.1 e.2 acc')
                     acc (handler_run now h p))
            (mkState (delete name (listeners b)) logged)
            (default [] (listeners b !! name))
  end.

Definition run_op (fuel : nat) (now : Z) (b : state) (o : op) : state :=
  match o with
  | Once name h => once name h b
  | Emit name p => emit fuel now name p b
  end.

Definition run (fuel : nat) (now : Z) (ops : list op) (b : state) : state :=
  foldl (run_op fuel now) b ops.

(** No handler is subscribed under any of [names]. *)
Definition unsubscribed (names : list string) (b : state) : Prop :=
  Forall (fun n => listeners b !! n = None) names.

(** The publications a piece of code makes itself. *)
Definition emitted (ops : list op) : list (string * payload) :=
  omap (fun o => match o with Emit n p => Some (n, p) | Once _ _ => None end) ops.

(** The publications under a given event name. *)
Definition published (name : string) (l : list (string * payload))
  : list payload :=
  omap (fun e => if decide (e.1 = name) then Some e.2 else None) l.

End Bus.

(** ** The Facade: [FBS] objects *)

Module FBS.
Import JS Data.

(** The configuration answered to [ctrl.config.fbs]. *)
Record OnlineStateConfig : Type := mkOnlineStateConfig {
  c_threshold : Z;
  c_onlineTimeout : Z;
  c_offlineTimeout : Z
}.

Record Config : Type := mkConfig {
  endpoint : option jsval;
  onlineState : option OnlineStateConfig;
  enableOnlineChecks : jsval
}.

(** [new FBS(bus, config)] (25-28): the constructor assigns [this.bus]
    and [this.config] and nothing else; [bus] is the one bus of the
    process, [config] is whatever the configuration event carried. *)
Record t : Type := mkFBS { config : option Config }.

Definition own_properties (fbs : t) : list string := ["bus"; "config"].

(** [Object.prototype.hasOwnProperty.call(fbs, k)] *)
Definition hasOwnProperty (fbs : t) (k : string) : bool :=
  bool_decide (k ∈ own_properties fbs).

(** [FBS.create] (47-66); [u1] and [u2] are what the two calls of
    [uniqid()] return. *)
Definition create_busEvent (u : string) : string := "fbs.config.loaded" +:+ u.
Definition create_errorEvent (u : string) : string := "fbs.config.error" +:+ u.

Definition create (u1 u2 : string) : list Bus.op :=
  [ Bus.Once (create_busEvent u1) Bus.CreateLoaded;
    Bus.Once (create_errorEvent u2) Bus.CreateError;
    Bus.Emit "ctrl.config.fbs"
             (PConfigRequest (create_busEvent u1) (create_errorEvent u2)) ].

(** How the promise returned by a method is settled. *)
Inductive settled (A : Type) : Type :=
| Resolved (a : A)
| Rejected (e : Error).
Arguments Resolved {A} a.
Arguments Rejected {A} e.

(** What the callback given to the transport does, in program order. *)
Inductive act (A : Type) : Type :=
| Settle (s : settled A)
| Report (name : string) (p : payload).
Arguments Settle {A} s.
Arguments Report {A} name p.

(** [!!err] *)
Definition failed (err : option Error) : bool := bool_decide (is_Some err).

(** [bus.emit('fbs.action.result', name, !!err)] *)
Definition action_result {A} (name : string) (err : option Error) : act A :=
  Report "fbs.action.result" (PActionResult name (failed err)).

(** [libraryStatus] (71-84) *)
Definition libraryStatus (err : option Error) (response : object)
  : list (act object) :=
  match err with
  | Some e => [Settle (Rejected e)]
  | None => [Settle (Resolved response)]
  end.

(** The answer of the transport to [patronStatus]. *)
Record PatronStatus : Type := mkPatronStatus {
  validPatron : jsval;
  validPatronPassword : jsval;
  chargePrivDenied : jsval;
  renewalPrivDenied : jsval;
  recallPrivDenied : jsval;
  holdPrivDenied : jsval
}.

(** [login] (97-126) *)
Definition login (err : option Error) (res : PatronStatus) : list (act unit) :=
  match err with
  | Some e => [Settle (Rejected e)]
  | None =>
      let valid := is_str "Y" (validPatron res)
                   && is_str "Y" (validPatronPassword res) in
      if valid then
        if truthy (chargePrivDenied res) && truthy (renewalPrivDenied res)
           && truthy (recallPrivDenied res) && truthy (holdPrivDenied res)
        then [Settle (Rejected (mkError "login.invalid_login_blocked"))]
        else [Settle (Resolved ())]
      else [Settle (Rejected (mkError "login.invalid_login_error"))]
  end ++ [action_result "Login" err].

(** The callback shared, up to the reported name, by the six methods
    below: settle with the transport's answer, then report. *)
Definition settle_then_report (name : string) (err : option Error)
    (res : jsval) : list (act jsval) :=
  match err with
  | Some e => [Settle (Rejected e)]
  | None => [Settle (Resolved res)]
  end ++ [action_result name err].

(** [patronInformation] (139-154) *)
Definition patronInformation := settle_then_report "Patron Information".
(** [checkout] (175-190) *)
Definition checkout := settle_then_report "Checkout".
(** [checkIn] (205-220) *)
Definition checkIn := settle_then_report "Checkin".
(** [renew] (235-250) *)
Definition renew := settle_then_report "Renew".
(** [renewAll] (263-278) *)
Definition renewAll := settle_then_report "Renew All".
(** [block] (291-306) *)
Definition block := settle_then_report "Block".

(** The settlement of the promise, and the reports, of a callback run. *)
Definition settlement {A} (acts : list (act A)) : option (settled A) :=
  head (omap (fun a => match a with Settle s => Some s | Report _ _ => None end) acts).

Definition reports {A} (acts : list (act A)) : list Bus.op :=
  omap (fun a => match a with
                 | Report n p => Some (Bus.Emit n p)
                 | Settle _ => None
                 end) acts.

End FBS.

(** ** The online checker *)

Module Monitor.
Import JS Data.

(** The initial [onlineState] (322-329). *)
Definition initial : OnlineState :=
  mkOnlineState true 5 5 5000 30000 300000.

Definition set_online (b : bool) (st : OnlineState) : OnlineState :=
  mkOnlineState b (threshold st) (successfulOnlineChecks st)
                (onlineTimeout st) (offlineTimeout st)
                (ensureOnlineCheckTimeout st).

Definition set_successfulOnlineChecks (n : Z) (st : OnlineState) : OnlineState :=
  mkOnlineState (online st) (threshold st) n
                (onlineTimeout st) (offlineTimeout st)
                (ensureOnlineCheckTimeout st).

Definition set_config (th on off : Z) (st : OnlineState) : OnlineState :=
  mkOnlineState (online st) th (successfulOnlineChecks st) on off
                (ensureOnlineCheckTimeout st).

(** What one continuation of [checkOnlineState] does: the new
    [onlineState], the delay it passes to
    [setTimeout(checkOnlineState, _)], and what it emits. *)
Record effect : Type := mkEffect {
  state : OnlineState;
  delay : Z;
  emits : list (string * payload)
}.

(** The test of line 367. *)
Definition accepted (res : object) : bool :=
  hasOwnProperty res "onlineState" && truthy (get res "onlineStatus").

(** The event emitted at 386-390. *)
Definition state_event (now : Z) (st : OnlineState) : string * payload :=
  (if online st then "fbs.online" else "fbs.offline", POnline now st).

(** [fbs.libraryStatus().then(res => ...)] (365-391) *)
Definition libraryStatus_resolved (now : Z) (st : OnlineState) (res : object)
  : effect :=
  if accepted res then
    if (successfulOnlineChecks st >=? threshold st)%Z then
      let st' := set_online true st in
      mkEffect st' (onlineTimeout st) [state_event now st']
    else
      let st' := set_online false
                   (set_successfulOnlineChecks (successfulOnlineChecks st + 1) st) in
      mkEffect st' (offlineTimeout st) [state_event now st']
  else
    let st' := set_online false (set_successfulOnlineChecks 0 st) in
    mkEffect st' (offlineTimeout st) [state_event now st'].

(** The rejection handler of [fbs.libraryStatus()] (392-401) *)
Definition libraryStatus_rejected (now : Z) (st : OnlineState) : effect :=
  let st' := set_successfulOnlineChecks 0 (set_online false st) in
  mkEffect st' (offlineTimeout st) [("fbs.offline", POnline now st')].

(** The branch "FBS not configured" (403-412) *)
Definition not_configured (now : Z) (st : OnlineState) : effect :=
  let st' := set_successfulOnlineChecks 0 (set_online false st) in
  mkEffect st' (offlineTimeout st) [("fbs.offline", POnline now st')].

(** [hasOwnProperty.call(fbs, 'onlineState') ? fbs.config.onlineState.f : cur]
    (358-360); reading through an absent [config] or [onlineState] throws. *)
Definition configured (fbs : FBS.t) (f : FBS.OnlineStateConfig -> Z) (cur : Z)
  : result Z :=
  if FBS.hasOwnProperty fbs "onlineState" then
    match FBS.config fbs with
    | Some c => match FBS.onlineState c with
                | Some o => Ok (f o)
                | None => Throw
                end
    | None => Throw
    end
  else Ok cur.

(** The test of line 363. *)
Definition has_endpoint (fbs : FBS.t) : bool :=
  bool_decide (is_Some (FBS.config fbs)) && FBS.hasOwnProperty fbs "endpoint".

(** [FBS.create(bus).then(function(fbs) ...)] (355-413); [status] is how
    the promise of [fbs.libraryStatus()] is settled when it is called. *)
Definition create_resolved (now : Z) (st : OnlineState) (fbs : FBS.t)
    (status : FBS.settled object) : result effect :=
  th ← configured fbs FBS.c_threshold (threshold st);
  on ← configured fbs FBS.c_onlineTimeout (onlineTimeout st);
  off ← configured fbs FBS.c_offlineTimeout (offlineTimeout st);
  let st1 := set_config th on off st in
  if has_endpoint fbs then
    match status with
    | FBS.Resolved res => Ok (libraryStatus_resolved now st1 res)
    | FBS.Rejected _ => Ok (libraryStatus_rejected now st1)
    end
  else Ok (not_configured now st1).

(** The rejection handler of [FBS.create(bus)] (414-419) *)
Definition create_rejected (st : OnlineState) : effect :=
  mkEffect st (offlineTimeout st)
    [("logger.info",
      PLog "checkOnlineState: FBS.create(bus) promise failed. Retrying.")].

(** How one poll ends. *)
Inductive outcome : Type :=
| CreateRejected (err : Error)
| CreateResolved (fbs : FBS.t) (status : FBS.settled object).

Definition settled (now : Z) (st : OnlineState) (o : outcome) : result effect :=
  match o with
  | CreateRejected _ => Ok (create_rejected st)
  | CreateResolved fbs status => create_resolved now st fbs status
  end.

(** *** The timers *)

Inductive TimerKind : Type := PollTimer | WatchdogTimer.

#[global] Instance TimerKind_eq_dec : EqDecision TimerKind.
Proof. solve_decision. Defined.

(** The closure state of the plugin together with the timers of the
    runtime: [armed] holds the timers set and neither fired nor cleared,
    [pending] counts the polls whose continuation has not run yet,
    [published] holds what the continuations of the polls have emitted. *)
Record t : Type := mkMonitor {
  onlineState : OnlineState;
  checkOnlineStateTimeout : option nat;
  ensureCheckOnlineStateTimeout : option nat;
  armed : gmap nat (TimerKind * Z);
  fresh : nat;
  pending : nat;
  published : list (string * payload)
}.

(** Plugin start (318-332): no timer is set yet. *)
Definition boot : t := mkMonitor initial None None ∅ 0 0 [].

(** [setTimeout(checkOnlineState, d)] *)
Definition setTimeout (k : TimerKind) (d : Z) (m : t) : nat * t :=
  (fresh m,
   mkMonitor (onlineState m) (checkOnlineStateTimeout m)
             (ensureCheckOnlineStateTimeout m)
             (<[fresh m := (k, d)]> (armed m)) (S (fresh m))
             (pending m) (published m)).

(** [clearTimeout(id)] *)
Definition clearTimeout (id : nat) (m : t) : t :=
  mkMonitor (onlineState m) (checkOnlineStateTimeout m)
            (ensureCheckOnlineStateTimeout m)
            (delete id (armed m)) (fresh m) (pending m) (published m).

Definition set_check (c : option nat) (m : t) : t :=
  mkMonitor (onlineState m) c (ensureCheckOnlineStateTimeout m)
            (armed m) (fresh m) (pending m) (published m).

Definition set_ensure (e : option nat) (m : t) : t :=
  mkMonitor (onlineState m) (checkOnlineStateTimeout m) e
            (armed m) (fresh m) (pending m) (published m).

Definition set_pending (n : nat) (m : t) : t :=
  mkMonitor (onlineState m) (checkOnlineStateTimeout m)
            (ensureCheckOnlineStateTimeout m)
            (armed m) (fresh m) n (published m).

(** [checkOnlineState], up to the call of [FBS.create] (339-355). *)
Definition checkOnlineState (m : t) : t :=
  let m1 := match ensureCheckOnlineStateTimeout m with
            | Some id => clearTimeout id m
            | None => m
            end in
  let '(w, m2) :=
    setTimeout WatchdogTimer
      (onlineTimeout (onlineState m1)
       + ensureOnlineCheckTimeout (onlineState m1))%Z m1 in
  let m3 := set_ensure (Some w) m2 in
  let m4 := match checkOnlineStateTimeout m3 with
            | Some id => set_check None (clearTimeout id m3)
            | None => m3
            end in
  set_pending (S (pending m4)) m4.

(** A pending poll ends with [o]: the continuation assigns
    [onlineState], emits, and stores a new timer in
    [checkOnlineStateTimeout].  A continuation that throws leaves an
    unhandled rejection and changes nothing. *)
Definition poll_settles (now : Z) (o : outcome) (m : t) : t :=
  match pending m with
  | O => m
  | S n =>
      match settled now (onlineState m) o with
      | Throw => set_pending n m
      | Ok eff =>
          let m1 := mkMonitor (state eff) (checkOnlineStateTimeout m)
                      (ensureCheckOnlineStateTimeout m) (armed m) (fresh m)
                      n (published m ++ emits eff) in
          let '(id, m2) := setTimeout PollTimer (delay eff) m1 in
          set_check (Some id) m2
      end
  end.

(** The runtime fires an armed timer: the timer is armed no more, and
    [checkOnlineState] is called. *)
Definition timer_fires (id : nat) (m : t) : t :=
  match armed m !! id with
  | Some _ => checkOnlineState (clearTimeout id m)
  | None => m
  end.

Inductive event : Type :=
| Start
| Fires (id : nat)
| Settles (now : Z) (o : outcome).

Definition step (m : t) (e : event) : t :=
  match e with
  | Start => checkOnlineState m
  | Fires id => timer_fires id m
  | Settles now o => poll_settles now o m
  end.

Definition run (es : list event) (m : t) : t := foldl step m es.

(** The timers of kind [k] that are armed. *)
Definition armed_of (k : TimerKind) (m : t) : gmap nat (TimerKind * Z) :=
  filter (fun e => e.2.1 = k) (armed m).

(** An armed watchdog timer is the one the plugin holds, and timer
    identifiers not handed out yet are not armed. *)
Definition watchdog_inv (m : t) : Prop :=
  (forall id d, armed m !! id = Some (WatchdogTimer, d) ->
                ensureCheckOnlineStateTimeout m = Some id)
  /\ (forall id, (fresh m <= id)%nat -> armed m !! id = None).

(** The successive effects of a sequence of [libraryStatus] settlements,
    as seen by the two handlers of 364-402. *)
Definition status_effect (now : Z) (st : OnlineState)
    (s : FBS.settled object) : effect :=
  match s with
  | FBS.Resolved res => libraryStatus_resolved now st res
  | FBS.Rejected _ => libraryStatus_rejected now st
  end.

(** A settlement the two handlers answer by going offline: a rejection, or
    a response that fails the test of line 367. *)
Definition goes_offline (s : FBS.settled object) : bool :=
  match s with
  | FBS.Resolved res => negb (accepted res)
  | FBS.Rejected _ => true
  end.

Fixpoint polls (now : Z) (st : OnlineState) (ss : list (FBS.settled object))
  : list effect :=
  match ss with
  | [] => []
  | s :: ss' =>
      let eff := status_effect now st s in
      eff :: polls now (state eff) ss'
  end.

(** A run in which [checkOnlineState] is only called while no poll is
    waiting for its continuation: every timer fires after the previous
    poll has ended. *)
Fixpoint sequential (es : list event) (m : t) : Prop :=
  match es with
  | [] => True
  | e :: es' =>
      match e with
      | Settles _ _ => True
      | Start | Fires _ => pending m = 0%nat
      end
      /\ sequential es' (step m e)
  end.

(** At most one poll waits for its continuation; an armed poll timer is
    the one the plugin holds, and none is armed while a poll waits. *)
Definition poll_inv (m : t) : Prop :=
  (pending m <= 1)%nat
  /\ (forall id d, armed m !! id = Some (PollTimer, d) ->
                   checkOnlineStateTimeout m = Some id /\ pending m = 0%nat)
  /\ (forall id, (fresh m <= id)%nat -> armed m !! id = None).

(** The timer the plugin holds in [checkOnlineStateTimeout] was handed out
    by [setTimeout], and identifiers not handed out yet are not armed. *)
Definition handed_out (m : t) : Prop :=
  (forall c, checkOnlineStateTimeout m = Some c -> (c < fresh m)%nat)
  /\ (forall id, (fresh m <= id)%nat -> armed m !! id = None).

(** The watchdog the plugin holds is armed. *)
Definition watchdog_armed (m : t) : Prop :=
  exists id d,
    ensureCheckOnlineStateTimeout m = Some id
    /\ armed m !! id = Some (WatchdogTimer, d).

End Monitor.

(** ** The request handlers of the plugin *)

Module Plugin.
Import JS Data.

Definition set_file (f : jsval) (data : Request) : Request :=
  mkRequest (username data) (password data) (itemIdentifier data)
            (queued data) (noBlockDueDate data) (noBlock data)
            (transactionDate data) (checkedInDate data) (transaction data)
            (busEvent data) (errorEvent data) f.

(** The rejection handler of [FBS.create(bus)] in every request handler
    (439-441, 461-463, 482-484, 576-579, 658-661, 680-682, 701-703,
    722-724). *)
Definition create_rejected (data : Request) (err : Error) : list Bus.op :=
  [Bus.Emit (errorEvent data) (PError err)].

(** The rejection handler of the Facade call in the handlers without
    fallback (434-436, 456-458, 477-479, 676-678, 697-699, 718-720). *)
Definition rejected (data : Request) (err : Error) : list Bus.op :=
  [Bus.Emit (errorEvent data) (PError err)].

(** *** [fbs.checkout] (490-580) *)

(** The handler up to the call of [FBS.create] (492-508). *)
Definition fbs_checkout (now : Z) (data : Request) : Request :=
  mkRequest (username data) (password data) (itemIdentifier data)
            (or (queued data) (JBool false))
            (match noBlockDueDate data with
             | Some d => Some d
             | None => Some (JNum (now + 2678400000))
             end)
            (noBlock data)
            (or (transactionDate data) (JNum now))
            (checkedInDate data) (transaction data)
            (busEvent data) (errorEvent data) (file data).

(** [noBlock] (504) *)
Definition checkout_noBlock (data : Request) : jsval :=
  default (JBool false) (noBlock data).

(** 519-524 *)
Definition fbs_checkout_resolved (now : Z) (data : Request) (res : jsval)
  : list Bus.op :=
  [Bus.Emit (busEvent data) (PResult now res)].

Definition checkout_stored (data : Request) : string :=
  "fbs.checkout.offline.stored" +:+ itemIdentifier data.
Definition checkout_error (data : Request) : string :=
  "fbs.checkout.offline.error" +:+ itemIdentifier data.

(** 527-536 *)
Definition checkout_material (data : Request) : Material :=
  mkMaterial (itemIdentifier data) true "1"
             (itemIdentifier data) "fbs.offline.title"
             (Some (default JUndefined (noBlockDueDate data))).

(** 551-564 *)
Definition checkout_append (data : Request) : AppendRequest :=
  mkAppendRequest "offline" (username data)
    (mkOfflineRecord (checkedInDate data) "checkout"
                     (Some (username data)) (Some (password data))
                     (itemIdentifier data))
    true (checkout_stored data) (checkout_error data).

(** 525-573.  The two closures hold the object [data], which has its
    [file] set by the time either of them runs. *)
Definition fbs_checkout_rejected (data : Request) (err : Error) : list Bus.op :=
  if String.eqb (message err) "FBS is offline" && is_false (queued data) then
    let file := username data in
    let data' := set_file file data in
    [ Bus.Once (checkout_stored data)
               (Bus.OfflineStored data' (checkout_material data));
      Bus.Once (checkout_error data) (Bus.OfflineError data');
      Bus.Emit "storage.append" (PAppend (checkout_append data));
      Bus.Emit "offline.add.checkout" (PJob data') ]
  else [Bus.Emit (errorEvent data) (PError err)].

(** *** [fbs.checkin] (585-662) *)

(** The handler up to the call of [FBS.create] (587-590). *)
Definition fbs_checkin (now : Z) (data : Request) : Request :=
  mkRequest (username data) (password data) (itemIdentifier data)
            (or (queued data) (JBool false))
            (noBlockDueDate data) (noBlock data) (transactionDate data)
            (or (checkedInDate data) (JNum now))
            (transaction data)
            (busEvent data) (errorEvent data) (file data).

(** [noBlock] (597) *)
Definition checkin_noBlock (data : Request) : jsval :=
  default (JBool false) (noBlock data).

(** 604-609 *)
Definition fbs_checkin_resolved (now : Z) (data : Request) (res : jsval)
  : list Bus.op :=
  [Bus.Emit (busEvent data) (PResult now res)].

Definition checkin_stored (data : Request) : string :=
  "fbs.checkin.offline.stored" +:+ itemIdentifier data.
Definition checkin_error (data : Request) : string :=
  "fbs.checkin.offline.error" +:+ itemIdentifier data.

(** 612-620 *)
Definition checkin_material (data : Request) : Material :=
  mkMaterial (itemIdentifier data) true "1"
             (itemIdentifier data) "fbs.offline.title" None.

(** 635-646 *)
Definition checkin_append (data : Request) : AppendRequest :=
  mkAppendRequest "offline" (transaction data)
    (mkOfflineRecord (checkedInDate data) "checkin" None None
                     (itemIdentifier data))
    true (checkin_stored data) (checkin_error data).

(** 610-655 *)
Definition fbs_checkin_rejected (data : Request) (err : Error) : list Bus.op :=
  if String.eqb (message err) "FBS is offline" && is_false (queued data) then
    let file := transaction data in
    let data' := set_file file data in
    [ Bus.Once (checkin_stored data)
               (Bus.OfflineStored data' (checkin_material data));
      Bus.Once (checkin_error data) (Bus.OfflineError data');
      Bus.Emit "storage.append" (PAppend (checkin_append data));
      Bus.Emit "offline.add.checkin" (PJob data') ]
  else [Bus.Emit (errorEvent data) (PError err)].

(** *** The handlers without fallback *)

(** [fbs.login] (429-433) *)
Definition fbs_login_resolved (now : Z) (data : Request) (_ : unit)
  : list Bus.op :=
  [Bus.Emit (busEvent data) (PTimestamp now)].

(** [fbs.library.status] (450-455) *)
Definition fbs_library_status_resolved (now : Z) (data : Request)
    (res : object) : list Bus.op :=
  [Bus.Emit (busEvent data) (PResults now res)].

(** [fbs.patron] (471-476) *)
Definition fbs_patron_resolved (now : Z) (data : Request) (status : jsval)
  : list Bus.op :=
  [Bus.Emit (busEvent data) (PPatron now status)].

(** [fbs.renew] (670-675), [fbs.renew.all] (691-696), [fbs.block]
    (712-717) *)
Definition fbs_renew_resolved (now : Z) (data : Request) (res : jsval)
  : list Bus.op :=
  [Bus.Emit (busEvent data) (PResult now res)].
Definition fbs_renew_all_resolved (now : Z) (data : Request) (res : jsval)
  : list Bus.op :=
  [Bus.Emit (busEvent data) (PResult now res)].
Definition fbs_block_resolved (now : Z) (data : Request) (res : jsval)
  : list Bus.op :=
  [Bus.Emit (busEvent data) (PResult now res)].

(** *** A request from its arrival to the end of its continuation *)

(** The transport calls the Facade's callback, which settles the promise
    and then reports; the handler given to [then] runs afterwards. *)
Definition continue {A} (acts : list (FBS.act A))
    (on_resolved : A -> list Bus.op) (on_rejected : Error -> list Bus.op)
  : list Bus.op :=
  FBS.reports acts ++
  match FBS.settlement acts with
  | Some (FBS.Resolved a) => on_resolved a
  | Some (FBS.Rejected e) => on_rejected e
  | None => []
  end.

(** A request event with the answer of the transport to the Facade call
    it leads to. *)
Inductive request : Type :=
| Login (data : Request) (err : option Error) (res : FBS.PatronStatus)
| LibraryStatus (data : Request) (err : option Error) (res : object)
| Patron (data : Request) (err : option Error) (res : jsval)
| Checkout (data : Request) (err : option Error) (res : jsval)
| CheckIn (data : Request) (err : option Error) (res : jsval)
| Renew (data : Request) (err : option Error) (res : jsval)
| RenewAll (data : Request) (err : option Error) (res : jsval)
| Block (data : Request) (err : option Error) (res : jsval).

(** The Facade callback run for a request. *)
Definition facade_reports (r : request) : list Bus.op :=
  match r with
  | Login _ err res => FBS.reports (FBS.login err res)
  | LibraryStatus _ err res => FBS.reports (FBS.libraryStatus err res)
  | Patron _ err res => FBS.reports (FBS.patronInformation err res)
  | Checkout _ err res => FBS.reports (FBS.checkout err res)
  | CheckIn _ err res => FBS.reports (FBS.checkIn err res)
  | Renew _ err res => FBS.reports (FBS.renew err res)
  | RenewAll _ err res => FBS.reports (FBS.renewAll err res)
  | Block _ err res => FBS.reports (FBS.block err res)
  end.

(** The reason the promise of the Facade call is rejected with, if it is. *)
Definition rejection {A} (acts : list (FBS.act A)) : option Error :=
  match FBS.settlement acts with
  | Some (FBS.Rejected e) => Some e
  | _ => None
  end.

Definition facade_rejection (r : request) : option Error :=
  match r with
  | Login _ err res => rejection (FBS.login err res)
  | LibraryStatus _ err res => rejection (FBS.libraryStatus err res)
  | Patron _ err res => rejection (FBS.patronInformation err res)
  | Checkout _ err res => rejection (FBS.checkout err res)
  | CheckIn _ err res => rejection (FBS.checkIn err res)
  | Renew _ err res => rejection (FBS.renew err res)
  | RenewAll _ err res => rejection (FBS.renewAll err res)
  | Block _ err res => rejection (FBS.block err res)
  end.

(** The [data] of a request as it arrives. *)
Definition request_data (r : request) : Request :=
  match r with
  | Login data _ _ | LibraryStatus data _ _ | Patron data _ _
  | Checkout data _ _ | CheckIn data _ _
  | Renew data _ _ | RenewAll data _ _ | Block data _ _ => data
  end.

(** The conditions of the offline fallback: a checkout or a check-in, a
    failure whose cause is the back end being unavailable, and a request
    that does not come from the queue ([queued] absent or false). *)
Definition fallback_applies (r : request) (e : Error) : bool :=
  match r with
  | Checkout data _ _ | CheckIn data _ _ =>
      String.eqb (message e) "FBS is offline" && negb (truthy (queued data))
  | _ => false
  end.

(** The pieces of a fallback: the two event names the store answers on,
    the name of the job event, the append request, the provisional result
    and the [data] handed to the queue. *)
Record fallback : Type := mkFallback {
  f_stored : string;
  f_error : string;
  f_job : string;
  f_append : AppendRequest;
  f_material : Material;
  f_data : Request
}.

Definition fallback_of (now : Z) (r : request) : option fallback :=
  match r with
  | Checkout d _ _ =>
      let data := fbs_checkout now d in
      Some (mkFallback (checkout_stored data) (checkout_error data)
                       "offline.add.checkout" (checkout_append data)
                       (checkout_material data)
                       (set_file (username data) data))
  | CheckIn d _ _ =>
      let data := fbs_checkin now d in
      Some (mkFallback (checkin_stored data) (checkin_error data)
                       "offline.add.checkin" (checkin_append data)
                       (checkin_material data)
                       (set_file (transaction data) data))
  | _ => None
  end.

(** The [data] a handler works with after its first statements. *)
Definition prepared (now : Z) (r : request) : Request :=
  match r with
  | Checkout data _ _ => fbs_checkout now data
  | CheckIn data _ _ => fbs_checkin now data
  | Login data _ _ | LibraryStatus data _ _ | Patron data _ _
  | Renew data _ _ | RenewAll data _ _ | Block data _ _ => data
  end.

(** What the plugin does on the bus for request [r] arriving at [now0]
    when [FBS.create] is settled with [created] and the continuation of
    the Facade call runs at [now1]. *)
Definition serve (now0 now1 : Z) (created : FBS.settled FBS.t) (r : request)
  : list Bus.op :=
  let data := prepared now0 r in
  match created with
  | FBS.Rejected e => create_rejected data e
  | FBS.Resolved _ =>
      match r with
      | Login _ err res =>
          continue (FBS.login err res)
                   (fbs_login_resolved now1 data) (rejected data)
      | LibraryStatus _ err res =>
          continue (FBS.libraryStatus err res)
                   (fbs_library_status_resolved now1 data) (rejected data)
      | Patron _ err res =>
          continue (FBS.patronInformation err res)
                   (fbs_patron_resolved now1 data) (rejected data)
      | Checkout _ err res =>
          continue (FBS.checkout err res)
                   (fbs_checkout_resolved now1 data)
                   (fbs_checkout_rejected data)
      | CheckIn _ err res =>
          continue (FBS.checkIn err res)
                   (fbs_checkin_resolved now1 data)
                   (fbs_checkin_rejected data)
      | Renew _ err res =>
          continue (FBS.renew err res)
                   (fbs_renew_resolved now1 data) (rejected data)
      | RenewAll _ err res =>
          continue (FBS.renewAll err res)
                   (fbs_renew_all_resolved now1 data) (rejected data)
      | Block _ err res =>
          continue (FBS.block err res)
                   (fbs_block_resolved now1 data) (rejected data)
      end
  end.

(** A request handler from its first statement: after its defaults it
    calls [FBS.create(bus)] (426, 449, 470, 511, 593, 668, 690, 711),
    [u1] and [u2] being what the two calls of [uniqid()] return; when the
    promise of [FBS.create] is settled with [created], the rest is
    [serve]. *)
Definition handle (u1 u2 : string) (now0 now1 : Z)
    (created : FBS.settled FBS.t) (r : request) : list Bus.op :=
  FBS.create u1 u2 ++ serve now0 now1 created r.

End Plugin.

(** ** Plugin start (729-749) *)

Module Startup.
Import JS Data.

(** [err.toString()] of an [Error] object. *)
Definition toString (err : Error) : string :=
  if String.eqb (message err) "" then "Error" else "Error: " +:+ message err.

(** What the start of the plugin leaves behind: the state of the online
    checker, the [message] of the [logger.err] event if one is emitted,
    and the [fbs] passed to [register] ([None] for [null]). *)
Record started : Type := mkStarted {
  monitor : Monitor.t;
  logged : option string;
  registered : option FBS.t
}.

(** The two handlers of [FBS.create(bus).then] at 729-749.  Reading
    [fbs.config.enableOnlineChecks] through an absent [config] throws,
    before [register] is reached. *)
Definition start (created : FBS.settled FBS.t) : result started :=
  match created with
  | FBS.Resolved fbs =>
      match FBS.config fbs with
      | None => Throw
      | Some c =>
          Ok (mkStarted
                (if truthy (FBS.enableOnlineChecks c)
                 then Monitor.checkOnlineState Monitor.boot
                 else Monitor.boot)
                None (Some fbs))
      end
  | FBS.Rejected err =>
      Ok (mkStarted Monitor.boot (Some (toString err)) None)
  end.

End Startup.

(** ** The online checker on the bus *)

Module Checker.
Import JS Data.

(** The events of the checker, with what the two calls of [uniqid()]
    return when the event leads to a call of [checkOnlineState], which
    starts its poll with [FBS.create(bus)] (355). *)
Inductive event : Type :=
| Start (u1 u2 : string)
| Fires (id : nat) (u1 u2 : string)
| Settles (now : Z) (o : Monitor.outcome).

Definition erase (e : event) : Monitor.event :=
  match e with
  | Start _ _ => Monitor.Start
  | Fires id _ _ => Monitor.Fires id
  | Settles now o => Monitor.Settles now o
  end.

(** What the checker does on the bus at an event, in state [m]: a call of
    [checkOnlineState] subscribes and publishes what [FBS.create] does; a
    continuation publishes what it emits. *)
Definition ops (m : Monitor.t) (e : event) : list Bus.op :=
  match e with
  | Start u1 u2 => FBS.create u1 u2
  | Fires id u1 u2 =>
      match Monitor.armed m !! id with
      | Some _ => FBS.create u1 u2
      | None => []
      end
  | Settles now o =>
      match Monitor.pending m with
      | O => []
      | S _ =>
          match Monitor.settled now (Monitor.onlineState m) o with
          | Ok eff => (fun e => Bus.Emit e.1 e.2) <$> Monitor.emits eff
          | Throw => []
          end
      end
  end.

(** A run of the checker: the state it ends in and everything it did on
    the bus, in order. *)
Fixpoint run (es : list event) (m : Monitor.t) : Monitor.t * list Bus.op :=
  match es with
  | [] => (m, [])
  | e :: es' =>
      let '(m', l) := run es' (Monitor.step m (erase e)) in
      (m', ops m e ++ l)
  end.

End Checker.

(** ** Concrete inputs *)

Module Examples.
Import JS Data.

(** A status response that passes the test of line 367. *)
Definition online_response : object :=
  <["onlineState" := JBool true]> (<["onlineStatus" := JBool true]> ∅).

(** A status response with [onlineStatus] false. *)
Definition offline_response : object :=
  <["onlineState" := JBool true]> (<["onlineStatus" := JBool false]> ∅).

(** Offline, nothing counted yet, threshold 5. *)
Definition offline0 : OnlineState :=
  mkOnlineState false 5 0 5000 30000 300000.

Definition unreachable : Error := mkError "FBS is offline".

(** The watchdog fires while the first poll is still waiting for its
    configuration; then both polls end. *)
Definition watchdog_race : list Monitor.event :=
  [ Monitor.Start;
    Monitor.Fires 0;
    Monitor.Settles 1 (Monitor.CreateRejected unreachable);
    Monitor.Settles 2 (Monitor.CreateRejected unreachable) ].

(** A checkout as the terminal sends it, and one by another patron for the
    same item. *)
Definition checkout1 : Request :=
  mkRequest (JStr "patron1") (JStr "1234") "item7" JUndefined None None
            JUndefined JUndefined JUndefined
            "fbs.checkout.success.a" "fbs.checkout.error.a" JUndefined.

Definition checkout2 : Request :=
  mkRequest (JStr "patron2") (JStr "5678") "item7" JUndefined None None
            JUndefined JUndefined JUndefined
            "fbs.checkout.success.b" "fbs.checkout.error.b" JUndefined.

(** A check-in as the terminal sends it. *)
Definition checkin1 : Request :=
  mkRequest JUndefined JUndefined "item7" JUndefined None None
            JUndefined JUndefined (JStr "tx42")
            "fbs.checkin.success.a" "fbs.checkin.error.a" JUndefined.

Definition disk_full : Error := mkError "ENOSPC".

Definition fbs0 : FBS.t := FBS.mkFBS None.

(** An [FBS] object with a complete configuration, online checks on. *)
Definition fbs1 : FBS.t :=
  FBS.mkFBS (Some (FBS.mkConfig (Some (JStr "https://fbs.example/sip2"))
                                (Some (FBS.mkOnlineStateConfig 3 1000 2000))
                                (JBool true))).

(** A patron the library accepts, and the same patron fully blocked. *)
Definition patron_ok : FBS.PatronStatus :=
  FBS.mkPatronStatus (JStr "Y") (JStr "Y") (JBool false) (JBool false)
                     (JBool false) (JBool false).

Definition patron_blocked : FBS.PatronStatus :=
  FBS.mkPatronStatus (JStr "Y") (JStr "Y") (JBool true) (JBool true)
                     (JBool true) (JBool true).

End Examples.

(** * Properties *)

(** ** The online checker *)

Section monitor.
Import JS Data Monitor.

(** An [FBS] object has the own properties [bus] and [config] only, so
    the tests of lines 358-360 and 363, which look for [onlineState] and
    [endpoint] on the object itself, never succeed. *)
Lemma fbs_has_no_endpoint (fbs : FBS.t) : has_endpoint fbs = false.
Proof. unfold has_endpoint. by rewrite andb_false_r. Qed.

Lemma configured_keeps (fbs : FBS.t) f (cur : Z) : configured fbs f cur = Ok cur.
Proof. reflexivity. Qed.

Lemma set_config_same (st : OnlineState) :
  set_config (threshold st) (onlineTimeout st) (offlineTimeout st) st = st.
Proof. by destruct st. Qed.

Lemma create_resolved_not_configured now st fbs status :
  has_endpoint fbs = false ->
  create_resolved now st fbs status = Ok (not_configured now st).
Proof.
  intros Hno. unfold create_resolved. rewrite !configured_keeps. simpl.
  by rewrite Hno, set_config_same.
Qed.

(** Hence every poll whose [FBS.create] succeeds takes the branch "FBS not
    configured", and no run of the checker publishes [fbs.online]. *)
Lemma settled_never_online now st o eff :
  settled now st o = Ok eff ->
  Forall (fun e => e.1 = "fbs.offline" \/ e.1 = "logger.info") (emits eff).
Proof.
  destruct o as [err | fbs status]; simpl.
  - intros [= <-]. simpl. constructor; [by right | constructor].
  - rewrite create_resolved_not_configured by apply fbs_has_no_endpoint.
    intros [= <-]. simpl. constructor; [by left | constructor].
Qed.

Lemma checkOnlineState_published m :
  published (checkOnlineState m) = published m.
Proof.
  unfold checkOnlineState.
  destruct (ensureCheckOnlineStateTimeout m); simpl;
    by destruct (checkOnlineStateTimeout m).
Qed.

Lemma run_never_publishes_online es :
  forall m,
    Forall (fun e => e.1 = "fbs.offline" \/ e.1 = "logger.info") (published m) ->
    Forall (fun e => e.1 = "fbs.offline" \/ e.1 = "logger.info")
           (published (run es m)).
Proof.
  induction es as [| e es IH]; intros m Hm; simpl; [done |].
  apply IH. destruct e as [| id | now o]; cbn [step].
  - by rewrite checkOnlineState_published.
  - unfold timer_fires. destruct (armed m !! id); [| done].
    by rewrite checkOnlineState_published.
  - unfold poll_settles. destruct (pending m); [done |].
    destruct (settled now (onlineState m) o) as [eff |] eqn:Heff; [| done].
    simpl. apply Forall_app. split; [done |].
    by apply settled_never_online in Heff.
Qed.

(** No continuation of a poll throws. *)
Lemma settled_returns now st o : exists eff, settled now st o = Ok eff.
Proof.
  destruct o as [err | fbs status]; simpl; [by eexists |].
  rewrite create_resolved_not_configured by apply fbs_has_no_endpoint.
  by eexists.
Qed.

End monitor.

Section hysteresis.
Import JS Data Monitor.

Lemma status_effect_keeps_config now st s :
  let st' := state (status_effect now st s) in
  threshold st' = threshold st /\ onlineTimeout st' = onlineTimeout st
  /\ offlineTimeout st' = offlineTimeout st.
Proof.
  destruct s as [res | e]; simpl; [| done].
  unfold libraryStatus_resolved.
  by destruct (accepted res), (successfulOnlineChecks st >=? threshold st)%Z.
Qed.

Lemma polls_app now st l1 l2 :
  polls now st (l1 ++ l2)
  = polls now st l1
    ++ polls now (foldl (fun s x => state (status_effect now s x)) st l1) l2.
Proof.
  revert st. induction l1 as [| s l1 IH]; intros st; simpl; [done |].
  by rewrite IH.
Qed.

Lemma polls_length now st l : length (polls now st l) = length l.
Proof. revert st. induction l as [| s l IH]; intros st; simpl; auto. Qed.

Lemma foldl_keeps_threshold now l st :
  threshold (foldl (fun s x => state (status_effect now s x)) st l)
  = threshold st.
Proof.
  revert st. induction l as [| s l IH]; intros st; simpl; [done |].
  rewrite IH. apply status_effect_keeps_config.
Qed.

(** A settlement that goes offline resets the counter and publishes
    [fbs.offline], whatever the state was. *)
Lemma goes_offline_resets now st s :
  goes_offline s = true ->
  let eff := status_effect now st s in
  online (state eff) = false
  /\ successfulOnlineChecks (state eff) = 0%Z
  /\ delay eff = offlineTimeout st
  /\ emits eff = [("fbs.offline", POnline now (state eff))].
Proof.
  destruct s as [res | e]; simpl; [| done].
  intros Hres%negb_true_iff. unfold libraryStatus_resolved.
  by rewrite Hres.
Qed.

(** A response with [onlineStatus] false, received while online. *)
Example offline_response_resets :
  status_effect 9 initial (FBS.Resolved Examples.offline_response)
  = mkEffect (mkOnlineState false 5 0 5000 30000 300000) 30000
             [("fbs.offline",
               POnline 9 (mkOnlineState false 5 0 5000 30000 300000))].
Proof. reflexivity. Qed.

(** A streak of accepted responses: when [j] accepted polls have been
    counted since the counter was last reset, the poll at position [i] of
    the streak publishes online exactly when [threshold <= j + i]. *)
Lemma streak_poll now (rs : list object) :
  forall (st : OnlineState) (j : Z) (i : nat) (eff : effect),
    Forall (fun r => accepted r = true) rs ->
    (0 <= j)%Z ->
    successfulOnlineChecks st = Z.min j (Z.max (threshold st) 0) ->
    polls now st (FBS.Resolved <$> rs) !! i = Some eff ->
    online (state eff) = bool_decide (threshold st <= j + Z.of_nat i)%Z
    /\ delay eff = (if online (state eff) then onlineTimeout st
                    else offlineTimeout st)
    /\ emits eff = [state_event now (state eff)].
Proof.
  induction rs as [| r rs IH]; intros st j i eff Hall Hj Hinv Hi; [done |].
  apply Forall_cons in Hall as [Hr Hall].
  destruct i as [| i]; simpl in Hi.
  - injection Hi as <-. unfold libraryStatus_resolved. rewrite Hr.
    destruct (Z.geb_spec (successfulOnlineChecks st) (threshold st)); simpl.
    + split; [| done]. symmetry. apply bool_decide_eq_true. lia.
    + split; [| done]. symmetry. apply bool_decide_eq_false. lia.
  - destruct (status_effect_keeps_config now st (FBS.Resolved r)) as (Hth & Hon & Hoff).
    simpl in Hth, Hon, Hoff.
    specialize (IH (state (libraryStatus_resolved now st r)) (j + 1)%Z i eff Hall).
    rewrite Hth, Hon, Hoff in IH.
    replace (j + Z.of_nat (S i))%Z with (j + 1 + Z.of_nat i)%Z by lia.
    apply IH; [lia | | done].
    unfold libraryStatus_resolved. rewrite Hr.
    destruct (Z.geb_spec (successfulOnlineChecks st) (threshold st)); simpl; lia.
Qed.

End hysteresis.

Section monitor_claims.
Import JS Data Monitor Examples.

(** C2, as stated, fails: with [threshold = 5], starting offline with
    [successfulOnlineChecks = 0], the fifth consecutive accepted poll does
    not publish online. *)
Lemma fifth_accepted_poll_is_offline :
  ~ (exists eff,
        polls 0 offline0 (FBS.Resolved <$> replicate 5 online_response) !! 4%nat
        = Some eff
        /\ online (state eff) = true).
Proof.
  intros (eff & Heff & Hon). vm_compute in Heff.
  injection Heff as <-. discriminate Hon.
Qed.

(** C2, amended: with [threshold = 5] and [successfulOnlineChecks = 0], in
    a run of polls whose responses all pass the test of line 367, the
    counter is compared with the threshold before it is incremented: the
    first five polls publish [fbs.offline] and re-arm after
    [offlineTimeout], the sixth and every later one publish [fbs.online]
    and re-arm after [onlineTimeout]. *)
Theorem online_from_sixth_accepted_poll now st (rs : list object) (i : nat) eff :
  threshold st = 5%Z ->
  successfulOnlineChecks st = 0%Z ->
  Forall (fun r => accepted r = true) rs ->
  polls now st (FBS.Resolved <$> rs) !! i = Some eff ->
  online (state eff) = bool_decide (5 <= i)%nat
  /\ delay eff = (if bool_decide (5 <= i)%nat then onlineTimeout st
                  else offlineTimeout st)
  /\ emits eff = [(if bool_decide (5 <= i)%nat then "fbs.online"
                   else "fbs.offline", POnline now (state eff))].
Proof.
  intros Hth Hc Hall Hi.
  destruct (streak_poll now rs st 0 i eff Hall) as (Hon & Hd & He);
    [lia | lia | done |].
  assert (online (state eff) = bool_decide (5 <= i)%nat) as Hon'.
  { rewrite Hon, Hth. apply bool_decide_ext. lia. }
  unfold state_event in He. rewrite Hon' in Hd, He. done.
Qed.

Lemma online_from_sixth_accepted_poll_witness :
  exists eff,
    polls 0 offline0 (FBS.Resolved <$> replicate 6 online_response) !! 5%nat
    = Some eff
    /\ online (state eff) = true
    /\ delay eff = 5000%Z.
Proof.
  eexists. split; [vm_compute; reflexivity |].
  destruct (online_from_sixth_accepted_poll 0 offline0
              (replicate 6 online_response) 5 _ eq_refl eq_refl
              ltac:(repeat constructor) eq_refl) as (Hon & Hd & _).
  split; [exact Hon | exact Hd].
Defined.

(** C3, amended: in every sequence of [libraryStatus] settlements handled
    by the two handlers of 364-402, a poll whose [libraryStatus] call is
    rejected or whose response fails the test of line 367 resets
    [successfulOnlineChecks] to 0 and publishes [fbs.offline]; and after
    it, a poll of the following streak of accepted responses publishes
    online only if at least [threshold] accepted polls of that streak
    precede it.  A poll that fails earlier, because [FBS.create] is
    rejected (414-419), leaves [onlineState] as it is and publishes no
    state, only [logger.info]. *)
Theorem online_only_after_threshold now st pre bad (goods : list object)
    (e : Error) :
  goes_offline bad = true ->
  Forall (fun r => accepted r = true) goods ->
  let effs := polls now st (pre ++ [bad] ++ (FBS.Resolved <$> goods)) in
  (exists eff,
      effs !! length pre = Some eff
      /\ online (state eff) = false
      /\ successfulOnlineChecks (state eff) = 0%Z
      /\ emits eff = [("fbs.offline", POnline now (state eff))])
  /\ (forall (i : nat) eff,
        effs !! (length pre + 1 + i)%nat = Some eff ->
        online (state eff) = true ->
        (threshold st <= Z.of_nat i)%Z)
  /\ settled now st (CreateRejected e)
     = Ok (mkEffect st (offlineTimeout st)
             [("logger.info",
               PLog "checkOnlineState: FBS.create(bus) promise failed. Retrying.")]).
Proof.
  intros Hbad Hall effs. subst effs. rewrite polls_app.
  set (st1 := foldl _ st pre).
  destruct (goes_offline_resets now st1 bad Hbad) as (Hon & Hc & _ & He).
  split; [| split; [| reflexivity]].
  - exists (status_effect now st1 bad).
    rewrite lookup_app_r by (rewrite polls_length; lia).
    rewrite polls_length, Nat.sub_diag. done.
  - intros i eff Hi Honl.
    rewrite lookup_app_r in Hi by (rewrite polls_length; lia).
    rewrite polls_length in Hi.
    replace (length pre + 1 + i - length pre)%nat with (S i) in Hi by lia.
    simpl in Hi.
    destruct (streak_poll now goods _ 0 i eff Hall ltac:(lia)
                ltac:(rewrite Hc; lia) Hi) as (Hon' & _).
    rewrite Honl in Hon'. symmetry in Hon'.
    apply bool_decide_eq_true in Hon'.
    destruct (status_effect_keeps_config now st1 bad) as (Hth & _).
    simpl in Hth. rewrite Hth in Hon'. subst st1.
    rewrite foldl_keeps_threshold in Hon'. lia.
Qed.

Lemma online_only_after_threshold_witness :
  let effs := polls 0 initial
                ([FBS.Resolved online_response] ++ [FBS.Rejected unreachable]
                 ++ (FBS.Resolved <$> replicate 6 online_response)) in
  (exists eff,
      effs !! 1%nat = Some eff
      /\ online (state eff) = false
      /\ successfulOnlineChecks (state eff) = 0%Z
      /\ emits eff = [("fbs.offline", POnline 0 (state eff))])
  /\ (forall (i : nat) eff,
        effs !! (1 + 1 + i)%nat = Some eff ->
        online (state eff) = true ->
        (5 <= Z.of_nat i)%Z)
  /\ settled 0 initial (CreateRejected unreachable)
     = Ok (mkEffect initial 30000
             [("logger.info",
               PLog "checkOnlineState: FBS.create(bus) promise failed. Retrying.")]).
Proof.
  apply (online_only_after_threshold 0 initial [FBS.Resolved online_response]
           (FBS.Rejected unreachable) (replicate 6 online_response)
           unreachable).
  - reflexivity.
  - repeat constructor.
Defined.

(** C3, as stated, fails: a poll of the checker that fails because
    [FBS.create] is rejected is a failed poll, and it neither resets
    [successfulOnlineChecks] nor publishes [fbs.offline]. *)
Lemma failed_poll_without_reset :
  let m := run [Start; Settles 1 (CreateRejected unreachable)] boot in
  ~ (successfulOnlineChecks (onlineState m) = 0%Z
     /\ exists p, ("fbs.offline", p) ∈ published m).
Proof.
  intros m [Hreset _]. vm_compute in Hreset. discriminate Hreset.
Qed.

(** C5, as stated, fails: when [FBS.create] is rejected, the continuation
    leaves [online] and [successfulOnlineChecks] as they were. *)
Lemma create_rejected_keeps_online :
  ~ (exists eff,
        settled 0 initial (CreateRejected unreachable) = Ok eff
        /\ online (state eff) = false
        /\ successfulOnlineChecks (state eff) = 0%Z).
Proof.
  intros (eff & Heff & Hon & _). simpl in Heff.
  injection Heff as <-. discriminate Hon.
Qed.

(** C5, amended: a poll in which the test for a configured endpoint (363)
    fails sets [online] to false and [successfulOnlineChecks] to 0 and
    publishes [fbs.offline]; a poll in which [FBS.create] is rejected logs
    and leaves [onlineState] unchanged and publishes no state.  In both
    cases the continuation does not throw, and it arms a poll timer with
    delay [offlineTimeout] and stores it in [checkOnlineStateTimeout]. *)
Theorem unconfigured_poll_retries now (m : t) o :
  pending m <> 0%nat ->
  match o with
  | CreateResolved fbs _ => has_endpoint fbs = false
  | CreateRejected _ => True
  end ->
  (exists eff,
      settled now (onlineState m) o = Ok eff
      /\ delay eff = offlineTimeout (onlineState m)
      /\ match o with
         | CreateResolved _ _ =>
             online (state eff) = false
             /\ successfulOnlineChecks (state eff) = 0%Z
             /\ emits eff = [("fbs.offline", POnline now (state eff))]
         | CreateRejected _ =>
             state eff = onlineState m
             /\ emits eff =
                  [("logger.info",
                    PLog "checkOnlineState: FBS.create(bus) promise failed. Retrying.")]
         end
      /\ onlineState (poll_settles now o m) = state eff
      /\ published (poll_settles now o m) = published m ++ emits eff)
  /\ armed (poll_settles now o m) !! fresh m
     = Some (PollTimer, offlineTimeout (onlineState m))
  /\ checkOnlineStateTimeout (poll_settles now o m) = Some (fresh m).
Proof.
  intros Hp Ho. unfold poll_settles.
  destruct (pending m) as [| n]; [done |].
  destruct o as [err | fbs status]; simpl.
  - split; [eexists; repeat split |]. simpl.
    by rewrite lookup_insert_eq.
  - rewrite (create_resolved_not_configured _ _ _ _ Ho). simpl.
    split; [eexists; repeat split |].
    by rewrite lookup_insert_eq.
Qed.

Lemma unconfigured_poll_retries_witness :
  armed (poll_settles 7 (CreateResolved (FBS.mkFBS None) (FBS.Rejected unreachable))
                      (checkOnlineState boot)) !! 1%nat
  = Some (PollTimer, 30000%Z)
  /\ online (onlineState
               (poll_settles 7 (CreateResolved (FBS.mkFBS None)
                                               (FBS.Rejected unreachable))
                             (checkOnlineState boot))) = false.
Proof.
  destruct (unconfigured_poll_retries 7 (checkOnlineState boot)
              (CreateResolved (FBS.mkFBS None) (FBS.Rejected unreachable)))
    as ((eff & Heff & _ & (Hon & _) & Hst & _) & Harm & _).
  - simpl. lia.
  - reflexivity.
  - split; [exact Harm |]. rewrite Hst. exact Hon.
Defined.

(** C9 fails on the poll timer: when the watchdog fires while a poll is
    still waiting for its continuation, both continuations arm a poll
    timer and the second does not clear the first; two poll timers are
    armed at once. *)
Theorem watchdog_race_arms_two_poll_timers :
  let m := run watchdog_race boot in
  armed m !! 2%nat = Some (PollTimer, 30000%Z)
  /\ armed m !! 3%nat = Some (PollTimer, 30000%Z)
  /\ checkOnlineStateTimeout m = Some 3%nat
  /\ size (armed_of PollTimer m) = 2%nat.
Proof. vm_compute. done. Qed.

(** At start the state is online with the counter already at the
    threshold and nothing has been published; the success handler of
    [libraryStatus] (365-391), run on that state with a response that
    passes the test of line 367, would keep the state as it is, publish
    [fbs.online] and re-arm after [onlineTimeout]. *)
Theorem starts_online_without_warm_up now (res : object) :
  accepted res = true ->
  onlineState boot = initial
  /\ published boot = []
  /\ online initial = true
  /\ successfulOnlineChecks initial = 5%Z
  /\ threshold initial = 5%Z
  /\ libraryStatus_resolved now initial res
     = mkEffect initial (onlineTimeout initial)
                [("fbs.online", POnline now initial)].
Proof.
  intros Hres. unfold libraryStatus_resolved. rewrite Hres. done.
Qed.

Lemma starts_online_without_warm_up_witness :
  libraryStatus_resolved 0 initial online_response
  = mkEffect initial 5000 [("fbs.online", POnline 0 initial)].
Proof.
  apply (starts_online_without_warm_up 0 online_response). reflexivity.
Defined.

(** C10 fails on its last part.  The first part holds: at start the state
    is online, [successfulOnlineChecks] is 5 and equals [threshold], and
    nothing has been published.  But the first poll that succeeds, with a
    complete configuration and a status answer that passes the test of
    line 367, does not keep the state online: line 363 looks for
    [endpoint] on the [FBS] object, the poll takes the branch of 403-412,
    sets [online] to false and the counter to 0 and publishes
    [fbs.offline]. *)
Theorem first_successful_poll_goes_offline :
  onlineState boot = initial
  /\ online initial = true
  /\ successfulOnlineChecks initial = 5%Z
  /\ threshold initial = 5%Z
  /\ published boot = []
  /\ let m := run [Start;
                  Settles 1 (CreateResolved fbs1 (FBS.Resolved online_response))]
                 boot in
     online (onlineState m) = false
     /\ successfulOnlineChecks (onlineState m) = 0%Z
     /\ published m
        = [("fbs.offline",
            POnline 1 (mkOnlineState false 5 0 5000 30000 300000))]
     /\ armed m !! 1%nat = Some (PollTimer, 30000%Z).
Proof. vm_compute. done. Qed.

End monitor_claims.

(** The watchdog half of the timer discipline holds in every run: an armed
    watchdog timer is the one stored in [ensureCheckOnlineStateTimeout]. *)
Section watchdog.
Import JS Data Monitor.

Lemma watchdog_inv_clear id m : watchdog_inv m -> watchdog_inv (clearTimeout id m).
Proof.
  intros [Hw Hf]. split; simpl.
  - intros id' d H. apply lookup_delete_Some in H as [_ H]. eauto.
  - intros id' Hle. apply lookup_delete_None. right. auto.
Qed.

Lemma watchdog_inv_checkOnlineState m :
  watchdog_inv m -> watchdog_inv (checkOnlineState m).
Proof.
  intros [Hw Hf]. unfold checkOnlineState.
  set (m1 := match ensureCheckOnlineStateTimeout m with
             | Some id => clearTimeout id m
             | None => m
             end).
  assert (fresh m1 = fresh m) as Hfresh
    by (subst m1; destruct (ensureCheckOnlineStateTimeout m); done).
  assert (forall id d, armed m1 !! id <> Some (WatchdogTimer, d)) as Hnone.
  { intros id d H. subst m1.
    destruct (ensureCheckOnlineStateTimeout m) as [e |] eqn:He; simpl in H.
    - apply lookup_delete_Some in H as [Hne H].
      apply Hw in H. congruence.
    - apply Hw in H. congruence. }
  assert (forall id, (fresh m <= id)%nat -> armed m1 !! id = None) as Hf1.
  { intros id Hle. subst m1.
    destruct (ensureCheckOnlineStateTimeout m); simpl; [| auto].
    apply lookup_delete_None. right. auto. }
  clearbody m1. simpl.
  destruct (checkOnlineStateTimeout m1) as [c |]; simpl; split; simpl.
  - intros id d H. apply lookup_delete_Some in H as [_ H].
    apply lookup_insert_Some in H as [[<- _] | [_ H]]; [by rewrite Hfresh |].
    by apply Hnone in H.
  - intros id Hle. apply lookup_delete_None. right.
    rewrite lookup_insert_ne by lia. apply Hf1. lia.
  - intros id d H.
    apply lookup_insert_Some in H as [[<- _] | [_ H]]; [by rewrite Hfresh |].
    by apply Hnone in H.
  - intros id Hle. rewrite lookup_insert_ne by lia. apply Hf1. lia.
Qed.

Lemma watchdog_inv_step m e : watchdog_inv m -> watchdog_inv (step m e).
Proof.
  intros Hinv. destruct e as [| id | now o]; simpl.
  - by apply watchdog_inv_checkOnlineState.
  - unfold timer_fires. destruct (armed m !! id); [| done].
    by apply watchdog_inv_checkOnlineState, watchdog_inv_clear.
  - unfold poll_settles. destruct (pending m) as [| n]; [done |].
    destruct Hinv as [Hw Hf].
    destruct (settled now (onlineState m) o) as [eff |]; simpl; [| done].
    split; simpl.
    + intros id d H.
      apply lookup_insert_Some in H as [[_ ?] | [_ H]]; [done | eauto].
    + intros id Hle. rewrite lookup_insert_ne by lia. apply Hf. lia.
Qed.

Lemma watchdog_inv_run es : forall m, watchdog_inv m -> watchdog_inv (run es m).
Proof.
  induction es as [| e es IH]; intros m Hinv; simpl; [done |].
  by apply IH, watchdog_inv_step.
Qed.

(** In every run from plugin start at most one watchdog timer is armed. *)
Lemma at_most_one_watchdog es :
  (size (armed_of WatchdogTimer (run es boot)) <= 1)%nat.
Proof.
  assert (watchdog_inv (run es boot)) as [Hw _].
  { apply watchdog_inv_run. split; simpl; intros; by simplify_map_eq. }
  set (m := run es boot) in *. unfold armed_of.
  destruct (ensureCheckOnlineStateTimeout m) as [e |] eqn:He.
  - transitivity (size (filter (fun kv : nat * (TimerKind * Z) => kv.1 = e) (armed m))).
    + apply map_subseteq_size, map_subseteq_spec.
      intros id [k d] H. apply map_lookup_filter_Some in H as [H Hk].
      simpl in Hk. subst k. apply map_lookup_filter_Some. split; [done |].
      simpl. specialize (Hw _ _ H). congruence.
    + destruct (armed m !! e) as [x |] eqn:Hx.
      * rewrite <- (insert_delete_id (armed m) e x Hx).
        rewrite map_filter_insert_True by done.
        rewrite map_size_insert_None
          by (apply map_lookup_filter_None; left; apply lookup_delete_eq).
        rewrite (map_empty_filter_2 _ (delete e (armed m))); [done |].
        intros id y H Hid. simpl in Hid. subst id.
        by rewrite lookup_delete_eq in H.
      * rewrite (map_empty_filter_2 _ (armed m)); [rewrite map_size_empty; lia |].
        intros id y H Hid. simpl in Hid. congruence.
  - rewrite (map_empty_filter_2 _ (armed m)); [rewrite map_size_empty; lia |].
    intros id [k d] H Hk. simpl in Hk. subst k.
    specialize (Hw _ _ H). congruence.
Qed.

End watchdog.

(** ** The Facade *)

Section facade_claims.
Import JS Data Examples.

(** C7, as stated, fails for [libraryStatus]: its callback settles the
    promise and reports nothing. *)
Lemma libraryStatus_reports_nothing :
  ~ (length (Bus.published "fbs.action.result"
               (Bus.emitted (FBS.reports (FBS.libraryStatus None online_response))))
     = 1%nat).
Proof. vm_compute. discriminate. Qed.

(** C7, amended: the callback of each of [login], [patronInformation],
    [checkout], [checkIn], [renew], [renewAll] and [block] first settles
    the promise and then publishes exactly one [fbs.action.result] with
    the name of the operation and [!!err], whether the transport reported
    an error; the settlement does not wait for the publication.  The
    callback of [libraryStatus] settles the promise and publishes
    nothing. *)
Theorem actions_report_once (err : option Error) (res : jsval)
    (status : FBS.PatronStatus) (response : object) :
  (exists s, FBS.login err status
             = [FBS.Settle s; FBS.action_result "Login" err])
  /\ (exists s, FBS.patronInformation err res
                = [FBS.Settle s; FBS.action_result "Patron Information" err])
  /\ (exists s, FBS.checkout err res
                = [FBS.Settle s; FBS.action_result "Checkout" err])
  /\ (exists s, FBS.checkIn err res
                = [FBS.Settle s; FBS.action_result "Checkin" err])
  /\ (exists s, FBS.renew err res
                = [FBS.Settle s; FBS.action_result "Renew" err])
  /\ (exists s, FBS.renewAll err res
                = [FBS.Settle s; FBS.action_result "Renew All" err])
  /\ (exists s, FBS.block err res
                = [FBS.Settle s; FBS.action_result "Block" err])
  /\ (exists s, FBS.libraryStatus err response = [FBS.Settle s]).
Proof.
  repeat split.
  - unfold FBS.login. destruct err; [by eexists |].
    destruct (_ && _); [destruct (_ && _) |]; by eexists.
  - unfold FBS.patronInformation, FBS.settle_then_report.
    destruct err; by eexists.
  - unfold FBS.checkout, FBS.settle_then_report. destruct err; by eexists.
  - unfold FBS.checkIn, FBS.settle_then_report. destruct err; by eexists.
  - unfold FBS.renew, FBS.settle_then_report. destruct err; by eexists.
  - unfold FBS.renewAll, FBS.settle_then_report. destruct err; by eexists.
  - unfold FBS.block, FBS.settle_then_report. destruct err; by eexists.
  - unfold FBS.libraryStatus. destruct err; by eexists.
Qed.

End facade_claims.

(** ** The request handlers *)

Section handler_claims.
Import JS Data Examples Plugin.

Lemma is_false_or_false (q : jsval) :
  is_false (or q (JBool false)) = negb (truthy q).
Proof. unfold or. by destruct q as [| | [] | n | s]; simpl; try destruct (_ =? _)%Z;
       try destruct (String.eqb _ _). Qed.

Lemma settle_then_report_rejection name err res e :
  rejection (FBS.settle_then_report name err res) = Some e -> err = Some e.
Proof. destruct err; simpl; [by intros [= ->] | done]. Qed.

Lemma continue_rejected {A} (acts : list (FBS.act A)) f g e :
  rejection acts = Some e ->
  continue acts f g = FBS.reports acts ++ g e.
Proof.
  unfold rejection, continue.
  destruct (FBS.settlement acts) as [[a | e'] |]; [done | | done].
  by intros [= ->].
Qed.

(** C4: when the Facade call of a request is rejected and the conditions
    of the fallback do not all hold (the request is not a checkout or
    check-in, or the cause is not the back end being unavailable, or the
    request is a replay with [queued] set), the handler publishes the
    failure, unchanged, on the caller's error event and does nothing else
    on the bus: no [storage.append], no job, no subscription.  The same
    holds for every request when [FBS.create] is rejected. *)
Theorem failure_is_forwarded_unchanged now0 now1 fbs (r : request) (e : Error) :
  facade_rejection r = Some e ->
  fallback_applies r e = false ->
  serve now0 now1 (FBS.Resolved fbs) r
  = facade_reports r ++ [Bus.Emit (errorEvent (request_data r)) (PError e)]
  /\ serve now0 now1 (FBS.Rejected e) r
     = [Bus.Emit (errorEvent (request_data r)) (PError e)].
Proof.
  intros Hrej Hno. split; [| by destruct r].
  destruct r as [data err res | data err res | data err res | data err res
                 | data err res | data err res | data err res | data err res];
    simpl in *; rewrite (continue_rejected _ _ _ e Hrej); try done.
  - unfold fbs_checkout_rejected. simpl.
    rewrite is_false_or_false, Hno. done.
  - unfold fbs_checkin_rejected. simpl.
    rewrite is_false_or_false, Hno. done.
Qed.

Lemma failure_is_forwarded_unchanged_witness :
  serve 1000 1001 (FBS.Resolved fbs0)
        (Checkout checkout1 (Some (mkError "InvalidCredentials")) JUndefined)
  = [ Bus.Emit "fbs.action.result" (PActionResult "Checkout" true);
      Bus.Emit "fbs.checkout.error.a" (PError (mkError "InvalidCredentials")) ]
  /\ serve 1000 1001 (FBS.Rejected (mkError "InvalidCredentials"))
        (Checkout checkout1 (Some (mkError "InvalidCredentials")) JUndefined)
     = [ Bus.Emit "fbs.checkout.error.a" (PError (mkError "InvalidCredentials")) ].
Proof.
  apply (failure_is_forwarded_unchanged 1000 1001 fbs0
           (Checkout checkout1 (Some (mkError "InvalidCredentials")) JUndefined)
           (mkError "InvalidCredentials")); reflexivity.
Defined.

(** The fallback is taken exactly under its conditions: a rejected
    checkout or check-in that satisfies them asks for a durable append. *)
Lemma fallback_taken now0 now1 fbs (r : request) (e : Error) :
  facade_rejection r = Some e ->
  fallback_applies r e = true ->
  exists n req, Bus.Emit "storage.append" (PAppend req)
                ∈ serve now0 now1 (FBS.Resolved fbs) r
                /\ Bus.Emit n (PJob (set_file (a_name req) (prepared now0 r)))
                   ∈ serve now0 now1 (FBS.Resolved fbs) r.
Proof.
  intros Hrej Hyes.
  destruct r as [data err res | data err res | data err res | data err res
                 | data err res | data err res | data err res | data err res];
    simpl in *; try done; rewrite (continue_rejected _ _ _ e Hrej).
  - unfold fbs_checkout_rejected. simpl. rewrite is_false_or_false, Hyes.
    do 2 eexists.
    split; apply elem_of_app; right; apply list_elem_of_In; simpl;
      [right; right; left; reflexivity | right; right; right; left; reflexivity].
  - unfold fbs_checkin_rejected. simpl. rewrite is_false_or_false, Hyes.
    do 2 eexists.
    split; apply elem_of_app; right; apply list_elem_of_In; simpl;
      [right; right; left; reflexivity | right; right; right; left; reflexivity].
Qed.

(** C8 fails for the checkout: the record of an offline checkout takes its
    [date] from [data.checkedInDate], which a checkout does not carry; the
    time of the transaction, [data.transactionDate], is not in it. *)
Theorem checkout_record_lacks_transaction_date :
  let data := fbs_checkout 1000 checkout1 in
  transactionDate data = JNum 1000
  /\ Bus.published "storage.append"
       (Bus.emitted (serve 1000 1001 (FBS.Resolved fbs0)
                           (Checkout checkout1 (Some unreachable) JUndefined)))
     = [ PAppend
           (mkAppendRequest "offline" (JStr "patron1")
              (mkOfflineRecord JUndefined "checkout" (Some (JStr "patron1"))
                               (Some (JStr "1234")) "item7")
              true "fbs.checkout.offline.storeditem7"
              "fbs.checkout.offline.erroritem7") ].
Proof. vm_compute. done. Qed.

(** The other parts of C8 hold: file key, action, credentials and item of
    the checkout record, and the whole check-in record, whose [date] is
    the check-in time the handler settled on; both appends ask for the
    lock. *)
Lemma offline_records now (data : Request) :
  let co := checkout_append (fbs_checkout now data) in
  let ci := checkin_append (fbs_checkin now data) in
  a_name co = username data
  /\ a_obj co = mkOfflineRecord (checkedInDate data) "checkout"
                  (Some (username data)) (Some (password data))
                  (itemIdentifier data)
  /\ a_lockFile co = true
  /\ a_name ci = transaction data
  /\ a_obj ci = mkOfflineRecord (or (checkedInDate data) (JNum now)) "checkin"
                  None None (itemIdentifier data)
  /\ a_lockFile ci = true.
Proof. done. Qed.

(** A check-in at time 2000 that finds the back end unavailable. *)
Example checkin_fallback :
  Bus.emitted (serve 2000 2001 (FBS.Resolved fbs0)
                     (CheckIn checkin1 (Some unreachable) JUndefined))
  = [ ("fbs.action.result", PActionResult "Checkin" true);
      ("storage.append",
       PAppend (mkAppendRequest "offline" (JStr "tx42")
                  (mkOfflineRecord (JNum 2000) "checkin" None None "item7")
                  true "fbs.checkin.offline.storeditem7"
                  "fbs.checkin.offline.erroritem7"));
      ("offline.add.checkin",
       PJob (mkRequest JUndefined JUndefined "item7" (JBool false) None None
                       JUndefined (JNum 2000) (JStr "tx42")
                       "fbs.checkin.success.a" "fbs.checkin.error.a"
                       (JStr "tx42"))) ].
Proof. reflexivity. Qed.

End handler_claims.

(** ** The fallback on the bus *)

Section bus_facts.
Import JS Data.

Lemma emit_no_listener fuel now name p (b : Bus.state) :
  Bus.listeners b !! name = None ->
  Bus.emit fuel now name p b
  = Bus.mkState (Bus.listeners b) (Bus.log b ++ [(name, p)]).
Proof.
  intros Hnone. destruct fuel as [| fuel]; simpl; [done |].
  by rewrite Hnone, delete_id.
Qed.

Lemma emit_one_listener fuel now name p (b : Bus.state) h n q :
  Bus.listeners b !! name = Some [h] ->
  Bus.handler_run now h p = [(n, q)] ->
  delete name (Bus.listeners b) !! n = None ->
  Bus.emit (S fuel) now name p b
  = Bus.mkState (delete name (Bus.listeners b))
                (Bus.log b ++ [(name, p); (n, q)]).
Proof.
  intros Hh Hrun Hn. simpl. rewrite Hh. simpl. rewrite Hrun. simpl.
  rewrite emit_no_listener by done. simpl.
  by rewrite <- app_assoc.
Qed.

(** The shape shared by the two fallbacks: a report, two subscriptions,
    the append request and the job, run on a bus where nothing else is
    subscribed under the names involved. *)
Variables (stored error job : string) (h1 h2 : Bus.handler).
Variables (a ap j : payload) (L : gmap string (list Bus.handler)).
Hypothesis stored_error : stored <> error.
Hypothesis append_stored : "storage.append" <> stored.
Hypothesis append_error : "storage.append" <> error.
Hypothesis job_stored : job <> stored.
Hypothesis job_error : job <> error.
Hypothesis free_report : L !! "fbs.action.result" = None.
Hypothesis free_append : L !! "storage.append" = None.
Hypothesis free_job : L !! job = None.
Hypothesis free_stored : L !! stored = None.
Hypothesis free_error : L !! error = None.

Lemma fallback_run fuel now l :
  Bus.run fuel now
    [ Bus.Emit "fbs.action.result" a; Bus.Once stored h1; Bus.Once error h2;
      Bus.Emit "storage.append" ap; Bus.Emit job j ] (Bus.mkState L l)
  = Bus.mkState (<[error := [h2]]> (<[stored := [h1]]> L))
      (l ++ [("fbs.action.result", a); ("storage.append", ap); (job, j)]).
Proof.
  unfold Bus.run. cbn [foldl Bus.run_op].
  rewrite (emit_no_listener _ _ "fbs.action.result") by done.
  unfold Bus.once at 2. cbn [Bus.listeners Bus.log].
  rewrite free_stored. cbn [default app].
  unfold Bus.once. cbn [Bus.listeners Bus.log].
  rewrite lookup_insert_ne, free_error by done. cbn [default app].
  rewrite (emit_no_listener _ _ "storage.append")
    by (cbn [Bus.listeners]; by rewrite !lookup_insert_ne).
  rewrite (emit_no_listener _ _ job)
    by (cbn [Bus.listeners]; by rewrite !lookup_insert_ne).
  cbn [Bus.listeners Bus.log]. by rewrite <- !app_assoc.
Qed.

Lemma fallback_stored fuel now p l n q :
  Bus.handler_run now h1 p = [(n, q)] ->
  n <> error ->
  L !! n = None ->
  Bus.log (Bus.emit (S fuel) now stored p
             (Bus.mkState (<[error := [h2]]> (<[stored := [h1]]> L)) l))
  = l ++ [(stored, p); (n, q)].
Proof.
  intros Hrun Hn Hfree.
  rewrite (emit_one_listener _ _ _ _ _ h1 n q); [done | | done |];
    cbn [Bus.listeners].
  - by rewrite lookup_insert_ne, lookup_insert_eq.
  - destruct (decide (stored = n)) as [<- | Hne].
    + by rewrite lookup_delete_eq.
    + by rewrite lookup_delete_ne, !lookup_insert_ne.
Qed.

Lemma fallback_error fuel now p l n q :
  Bus.handler_run now h2 p = [(n, q)] ->
  n <> stored ->
  L !! n = None ->
  Bus.log (Bus.emit (S fuel) now error p
             (Bus.mkState (<[error := [h2]]> (<[stored := [h1]]> L)) l))
  = l ++ [(error, p); (n, q)].
Proof.
  intros Hrun Hn Hfree.
  rewrite (emit_one_listener _ _ _ _ _ h2 n q); [done | | done |];
    cbn [Bus.listeners].
  - by rewrite lookup_insert_eq.
  - destruct (decide (error = n)) as [<- | Hne].
    + by rewrite lookup_delete_eq.
    + by rewrite lookup_delete_ne, !lookup_insert_ne.
Qed.

End bus_facts.

Section fallback_claims.
Import JS Data Examples Plugin.

Lemma serve_checkout_fallback now0 now1 fbs (d : Request) (e : Error) res :
  fallback_applies (Checkout d (Some e) res) e = true ->
  let data := fbs_checkout now0 d in
  serve now0 now1 (FBS.Resolved fbs) (Checkout d (Some e) res)
  = [ Bus.Emit "fbs.action.result" (PActionResult "Checkout" true);
      Bus.Once (checkout_stored data)
        (Bus.OfflineStored (set_file (username data) data)
                           (checkout_material data));
      Bus.Once (checkout_error data)
        (Bus.OfflineError (set_file (username data) data));
      Bus.Emit "storage.append" (PAppend (checkout_append data));
      Bus.Emit "offline.add.checkout" (PJob (set_file (username data) data)) ].
Proof.
  intros Hyes data. cbn [serve prepared]. unfold continue, FBS.checkout. cbn.
  unfold fbs_checkout_rejected.
  replace (queued (fbs_checkout now0 d))
    with (or (queued d) (JBool false)) by done.
  rewrite is_false_or_false. cbn [fallback_applies] in Hyes. by rewrite Hyes.
Qed.

Lemma serve_checkin_fallback now0 now1 fbs (d : Request) (e : Error) res :
  fallback_applies (CheckIn d (Some e) res) e = true ->
  let data := fbs_checkin now0 d in
  serve now0 now1 (FBS.Resolved fbs) (CheckIn d (Some e) res)
  = [ Bus.Emit "fbs.action.result" (PActionResult "Checkin" true);
      Bus.Once (checkin_stored data)
        (Bus.OfflineStored (set_file (transaction data) data)
                           (checkin_material data));
      Bus.Once (checkin_error data)
        (Bus.OfflineError (set_file (transaction data) data));
      Bus.Emit "storage.append" (PAppend (checkin_append data));
      Bus.Emit "offline.add.checkin" (PJob (set_file (transaction data) data)) ].
Proof.
  intros Hyes data. cbn [serve prepared]. unfold continue, FBS.checkIn. cbn.
  unfold fbs_checkin_rejected.
  replace (queued (fbs_checkin now0 d))
    with (or (queued d) (JBool false)) by done.
  rewrite is_false_or_false. cbn [fallback_applies] in Hyes. by rewrite Hyes.
Qed.

(** C1, as stated, fails: the job is handed to the queue in the same turn
    as the append is requested.  Here the store then reports an error, no
    confirmation is ever published, and the job has been enqueued all the
    same. *)
Lemma job_enqueued_before_append_is_confirmed :
  let served :=
    Bus.run 2 1001
      (serve 1000 1001 (FBS.Resolved fbs0)
             (Checkout checkout1 (Some unreachable) JUndefined))
      Bus.empty in
  let failed :=
    Bus.emit 2 1005 "fbs.checkout.offline.erroritem7" (PError disk_full)
             served in
  ~ (forall (i : nat) job,
        Bus.log failed !! i = Some ("offline.add.checkout", job) ->
        exists (k : nat) p,
          (k < i)%nat
          /\ Bus.log failed !! k = Some ("fbs.checkout.offline.storeditem7", p)).
Proof.
  intros served failed H.
  edestruct (H 2%nat) as (k & p & Hk & Hl); [vm_compute; reflexivity |].
  destruct k as [| [| k]]; [vm_compute in Hl; discriminate Hl.. | lia].
Qed.

(** C1, amended: a checkout or check-in rejected because the back end is
    unavailable, with [queued] not set, served on a bus where nothing else
    is subscribed under the events involved, publishes the append request
    and then the job, once each, in the same turn and before any answer of
    the store; nothing is published to the caller in that turn.  When the
    store then confirms on the stored event, the provisional result is
    published on the caller's success event; when it answers on the error
    event, what it sent is published on the caller's error event and no
    provisional result is.  The caller's two events are taken to differ
    from the item's offline events. *)
Theorem provisional_result_waits_for_append
    (fuel : nat) now0 now1 now2 fbs (r : request) (e : Error) (f : fallback)
    (p : payload) (b : Bus.state) :
  facade_rejection r = Some e ->
  fallback_applies r e = true ->
  fallback_of now0 r = Some f ->
  Bus.unsubscribed
    [ "fbs.action.result"; "storage.append"; f_job f; f_stored f; f_error f;
      busEvent (request_data r); errorEvent (request_data r) ] b ->
  busEvent (request_data r) <> f_error f ->
  errorEvent (request_data r) <> f_stored f ->
  let served :=
    Bus.run (S fuel) now1 (serve now0 now1 (FBS.Resolved fbs) r) b in
  (exists report,
      Bus.log served
      = Bus.log b ++ [ ("fbs.action.result", report);
                       ("storage.append", PAppend (f_append f));
                       (f_job f, PJob (f_data f)) ])
  /\ Bus.log (Bus.emit (S fuel) now2 (f_stored f) p served)
     = Bus.log served
       ++ [ (f_stored f, p);
            (busEvent (request_data r), PProvisional now2 (f_material f)) ]
  /\ Bus.log (Bus.emit (S fuel) now2 (f_error f) p served)
     = Bus.log served
       ++ [ (f_error f, p); (errorEvent (request_data r), p) ].
Proof.
  intros Hrej Hyes Hf Hb Hbus Herr served. subst served.
  destruct b as [L l]. unfold Bus.unsubscribed in Hb. cbn [Bus.listeners] in Hb.
  repeat match goal with
         | H : Forall _ (_ :: _) |- _ => apply Forall_cons in H as [? H]
         end.
  destruct r as [data err res | data err res | data err res | data err res
                 | data err res | data err res | data err res | data err res];
    try discriminate Hyes; cbn [request_data] in *.
  - cbn [fallback_of] in Hf. injection Hf as <-.
    cbn [f_stored f_error f_job f_append f_material f_data] in *.
    apply settle_then_report_rejection in Hrej as ->.
    rewrite serve_checkout_fallback by done. cbv zeta.
    rewrite fallback_run;
      [| by (try done; unfold checkout_stored, checkout_error; cbn;
             intros ?; simplify_eq)..].
    split; [by eexists |].
    split; [apply fallback_stored | apply fallback_error]; done.
  - cbn [fallback_of] in Hf. injection Hf as <-.
    cbn [f_stored f_error f_job f_append f_material f_data] in *.
    apply settle_then_report_rejection in Hrej as ->.
    rewrite serve_checkin_fallback by done. cbv zeta.
    rewrite fallback_run;
      [| by (try done; unfold checkin_stored, checkin_error; cbn;
             intros ?; simplify_eq)..].
    split; [by eexists |].
    split; [apply fallback_stored | apply fallback_error]; done.
Qed.

Lemma provisional_result_waits_for_append_witness :
  let served :=
    Bus.run 2 1001
      (serve 1000 1001 (FBS.Resolved fbs0)
             (Checkout checkout1 (Some unreachable) JUndefined))
      Bus.empty in
  Bus.log (Bus.emit 2 1005 "fbs.checkout.offline.storeditem7" PStored served)
  = Bus.log served
    ++ [ ("fbs.checkout.offline.storeditem7", PStored);
         ("fbs.checkout.success.a",
          PProvisional 1005
            (mkMaterial "item7" true "1" "item7" "fbs.offline.title"
                        (Some (JNum 2678401000)))) ].
Proof.
  destruct (provisional_result_waits_for_append 1 1000 1001 1005 fbs0
              (Checkout checkout1 (Some unreachable) JUndefined) unreachable
              _ PStored Bus.empty eq_refl eq_refl eq_refl)
    as (_ & Hstored & _);
    [repeat constructor | discriminate | discriminate | exact Hstored].
Defined.

(** C6 fails for the fallback: its two event names are built from the item
    identifier, so two checkouts of the same item wait on the same pair.
    When the store confirms one append, both callers are told the loan was
    accepted; when it then reports an error for the other append, both
    callers are sent the error. *)
Theorem same_item_fallbacks_share_events :
  let data1 := fbs_checkout 1000 checkout1 in
  let data2 := fbs_checkout 1000 checkout2 in
  let served :=
    Bus.run 2 1001
      (serve 1000 1001 (FBS.Resolved fbs0)
             (Checkout checkout1 (Some unreachable) JUndefined)
       ++ serve 1000 1001 (FBS.Resolved fbs0)
             (Checkout checkout2 (Some unreachable) JUndefined))
      Bus.empty in
  let confirmed := Bus.emit 2 1005 (checkout_stored data1) PStored served in
  let failed := Bus.emit 2 1006 (checkout_error data2) (PError disk_full)
                         confirmed in
  busEvent data1 <> busEvent data2
  /\ errorEvent data1 <> errorEvent data2
  /\ checkout_stored data1 = checkout_stored data2
  /\ checkout_error data1 = checkout_error data2
  /\ Bus.published (busEvent data1) (Bus.log confirmed)
     = [PProvisional 1005 (checkout_material data1)]
  /\ Bus.published (busEvent data2) (Bus.log confirmed)
     = [PProvisional 1005 (checkout_material data2)]
  /\ Bus.published (errorEvent data1) (Bus.log failed) = [PError disk_full]
  /\ Bus.published (errorEvent data2) (Bus.log failed) = [PError disk_full].
Proof. vm_compute. repeat split; discriminate. Qed.

(** What does hold of the correlation names: those of [FBS.create] differ
    whenever [uniqid()] returned different strings, and those of the
    fallback differ for different items. *)
Lemma create_events_distinct (u u' : string) :
  u <> u' ->
  FBS.create_busEvent u <> FBS.create_busEvent u'
  /\ FBS.create_errorEvent u <> FBS.create_errorEvent u'.
Proof.
  intros Hne. split; intros H; apply Hne; by apply String.app_inj in H.
Qed.

Lemma fallback_events_distinct (d d' : Request) :
  itemIdentifier d <> itemIdentifier d' ->
  checkout_stored d <> checkout_stored d'
  /\ checkout_error d <> checkout_error d'
  /\ checkin_stored d <> checkin_stored d'
  /\ checkin_error d <> checkin_error d'.
Proof.
  intros Hne. repeat split; intros H; apply Hne; by apply String.app_inj in H.
Qed.

End fallback_claims.

(** * Further properties of the plugin *)

(** ** The online checker *)

Section monitor_coverage.
Import JS Data Monitor Examples.

(** X1.  Whatever the configuration holds (an endpoint, an [onlineState]
    section) and however [libraryStatus] would settle, the continuation of
    a successful [FBS.create] (355-413) goes offline, resets the counter,
    keeps threshold and timeouts as they were, publishes [fbs.offline] and
    re-arms after [offlineTimeout]; it does not throw. *)
Theorem created_poll_goes_offline now st (fbs : FBS.t)
    (status : FBS.settled object) :
  exists eff,
    create_resolved now st fbs status = Ok eff
    /\ online (state eff) = false
    /\ successfulOnlineChecks (state eff) = 0%Z
    /\ threshold (state eff) = threshold st
    /\ onlineTimeout (state eff) = onlineTimeout st
    /\ offlineTimeout (state eff) = offlineTimeout st
    /\ ensureOnlineCheckTimeout (state eff) = ensureOnlineCheckTimeout st
    /\ delay eff = offlineTimeout st
    /\ emits eff = [("fbs.offline", POnline now (state eff))].
Proof.
  rewrite create_resolved_not_configured by apply fbs_has_no_endpoint.
  eexists. split; [reflexivity |]. by repeat split.
Qed.

Lemma settled_keeps_config now st o eff :
  settled now st o = Ok eff ->
  threshold (state eff) = threshold st
  /\ onlineTimeout (state eff) = onlineTimeout st
  /\ offlineTimeout (state eff) = offlineTimeout st
  /\ ensureOnlineCheckTimeout (state eff) = ensureOnlineCheckTimeout st.
Proof.
  destruct o as [err | fbs status]; simpl.
  - by intros [= <-].
  - rewrite create_resolved_not_configured by apply fbs_has_no_endpoint.
    by intros [= <-].
Qed.

Lemma checkOnlineState_onlineState m :
  onlineState (checkOnlineState m) = onlineState m.
Proof.
  unfold checkOnlineState.
  destruct (ensureCheckOnlineStateTimeout m); simpl;
    by destruct (checkOnlineStateTimeout m).
Qed.

Lemma step_keeps_config m e :
  threshold (onlineState (step m e)) = threshold (onlineState m)
  /\ onlineTimeout (onlineState (step m e)) = onlineTimeout (onlineState m)
  /\ offlineTimeout (onlineState (step m e)) = offlineTimeout (onlineState m)
  /\ ensureOnlineCheckTimeout (onlineState (step m e))
     = ensureOnlineCheckTimeout (onlineState m).
Proof.
  destruct e as [| id | now o]; cbn [step].
  - by rewrite checkOnlineState_onlineState.
  - unfold timer_fires. destruct (armed m !! id); [| done].
    by rewrite checkOnlineState_onlineState.
  - unfold poll_settles. destruct (pending m); [done |].
    destruct (settled now (onlineState m) o) as [eff |] eqn:Heff; [| done].
    simpl. by apply settled_keeps_config in Heff.
Qed.

(** In every run of the checker from the start of the plugin, whatever
    configurations and status answers arrive, the continuations of the
    polls emit nothing but [fbs.offline] and [logger.info], and threshold
    and timeouts stay at their initial values 5, 5000, 30000 and 300000:
    the values of the configuration are never taken over. *)
Theorem checker_never_goes_online (es : list event) :
  let m := run es boot in
  Forall (fun e => e.1 = "fbs.offline" \/ e.1 = "logger.info") (published m)
  /\ threshold (onlineState m) = 5%Z
  /\ onlineTimeout (onlineState m) = 5000%Z
  /\ offlineTimeout (onlineState m) = 30000%Z
  /\ ensureOnlineCheckTimeout (onlineState m) = 300000%Z.
Proof.
  split; [by apply run_never_publishes_online |].
  assert (forall m0,
             threshold (onlineState (run es m0)) = threshold (onlineState m0)
             /\ onlineTimeout (onlineState (run es m0))
                = onlineTimeout (onlineState m0)
             /\ offlineTimeout (onlineState (run es m0))
                = offlineTimeout (onlineState m0)
             /\ ensureOnlineCheckTimeout (onlineState (run es m0))
                = ensureOnlineCheckTimeout (onlineState m0)) as Hrun.
  { induction es as [| e es IH]; intros m0; simpl; [done |].
    destruct (IH (step m0 e)) as (-> & -> & -> & ->).
    apply step_keeps_config. }
  apply (Hrun boot).
Qed.

(** X3.  The two handlers of [libraryStatus] (364-402) keep signal, counter,
    delay and event in step: online is published only with the counter at
    or above the threshold, under the event name that matches the flag,
    and the next poll comes after [onlineTimeout] exactly when online was
    published, after [offlineTimeout] otherwise. *)
Theorem status_effect_consistent now st (s : FBS.settled object) :
  let eff := status_effect now st s in
  (online (state eff) = true ->
   (threshold (state eff) <= successfulOnlineChecks (state eff))%Z)
  /\ delay eff = (if online (state eff) then onlineTimeout st
                  else offlineTimeout st)
  /\ emits eff = [(if online (state eff) then "fbs.online" else "fbs.offline",
                   POnline now (state eff))].
Proof.
  destruct s as [res | e]; simpl; [| done].
  unfold libraryStatus_resolved.
  destruct (accepted res); [| done].
  destruct (Z.geb_spec (successfulOnlineChecks st) (threshold st)); simpl;
    repeat split; done || lia.
Qed.

(** X4.  The counter stays within bounds: started between 0 and the threshold,
    it is between 0 and the threshold after every poll of every sequence
    of [libraryStatus] settlements. *)
Theorem counter_stays_bounded now (ss : list (FBS.settled object)) :
  forall st,
    (0 <= successfulOnlineChecks st <= threshold st)%Z ->
    Forall (fun eff =>
              (0 <= successfulOnlineChecks (state eff) <= threshold st)%Z)
           (polls now st ss).
Proof.
  induction ss as [| s ss IH]; intros st Hb; simpl; [constructor |].
  assert (0 <= successfulOnlineChecks (state (status_effect now st s))
          <= threshold st)%Z as Hb'.
  { destruct s as [res | e]; simpl; [| lia].
    unfold libraryStatus_resolved. destruct (accepted res); simpl; [| lia].
    destruct (Z.geb_spec (successfulOnlineChecks st) (threshold st)); simpl; lia. }
  constructor; [done |].
  destruct (status_effect_keeps_config now st s) as (Hth & _).
  simpl in Hth. rewrite <- Hth. apply IH. by rewrite Hth.
Qed.

Lemma counter_stays_bounded_witness :
  Forall (fun eff => (0 <= successfulOnlineChecks (state eff) <= 5)%Z)
         (polls 0 initial
                [FBS.Resolved online_response; FBS.Rejected unreachable;
                 FBS.Resolved online_response; FBS.Resolved offline_response]).
Proof.
  apply (counter_stays_bounded 0
           [FBS.Resolved online_response; FBS.Rejected unreachable;
            FBS.Resolved online_response; FBS.Resolved offline_response]
           initial).
  simpl. lia.
Defined.

End monitor_coverage.


(** ** The timers of the online checker *)

Section timer_coverage.
Import JS Data Monitor Examples.

Lemma handed_out_clear id m : handed_out m -> handed_out (clearTimeout id m).
Proof.
  intros [Hc Hf]. split; simpl; [done |].
  intros id' Hle. apply lookup_delete_None. right. auto.
Qed.

Lemma checkOnlineState_arms_watchdog m :
  handed_out m ->
  handed_out (checkOnlineState m) /\ watchdog_armed (checkOnlineState m).
Proof.
  intros Hm. unfold checkOnlineState.
  set (m1 := match ensureCheckOnlineStateTimeout m with
             | Some id => clearTimeout id m
             | None => m
             end).
  assert (handed_out m1) as [Hc Hf].
  { subst m1. destruct (ensureCheckOnlineStateTimeout m); [| done].
    by apply handed_out_clear. }
  clearbody m1. unfold watchdog_armed. simpl.
  destruct (checkOnlineStateTimeout m1) as [c |] eqn:Heq; simpl.
  - specialize (Hc c eq_refl). split; [split; simpl |].
    + intros c' Hc'. done.
    + intros id Hle. apply lookup_delete_None. right.
      rewrite lookup_insert_ne by lia. apply Hf. lia.
    + do 2 eexists. split; [done |].
      rewrite lookup_delete_ne by lia. apply lookup_insert_eq.
  - split; [split; simpl |].
    + intros c. rewrite ?Heq. intros Hc'. apply Hc in Hc'. lia.
    + intros id Hle. rewrite lookup_insert_ne by lia. apply Hf. lia.
    + do 2 eexists. split; [done |]. apply lookup_insert_eq.
Qed.

Lemma step_keeps_watchdog m e :
  handed_out m -> watchdog_armed m ->
  handed_out (step m e) /\ watchdog_armed (step m e).
Proof.
  intros Hm Hw. destruct e as [| id | now o]; cbn [step].
  - by apply checkOnlineState_arms_watchdog.
  - unfold timer_fires. destruct (armed m !! id); [| done].
    by apply checkOnlineState_arms_watchdog, handed_out_clear.
  - unfold poll_settles. destruct (pending m) as [| n]; [done |].
    destruct Hm as [Hc Hf]. destruct Hw as (w & d & Hw & Hwa).
    destruct (settled now (onlineState m) o) as [eff |]; simpl.
    + split; [split; simpl |].
      * intros c [= <-]. lia.
      * intros id Hle. rewrite lookup_insert_ne by lia. apply Hf. lia.
      * exists w, d. split; [done |]. simpl.
        rewrite lookup_insert_ne; [done |].
        intros <-. rewrite Hf in Hwa by lia. done.
    + split; [done |]. by exists w, d.
Qed.

Lemma run_keeps_watchdog es :
  forall m, handed_out m -> watchdog_armed m ->
            handed_out (run es m) /\ watchdog_armed (run es m).
Proof.
  induction es as [| e es IH]; intros m Hm Hw; simpl; [done |].
  destruct (step_keeps_watchdog m e Hm Hw). by apply IH.
Qed.

(** X5.  When the plugin starts with online checks enabled (729-734), then at
    every instant of every run that follows exactly one watchdog timer is
    armed, whatever polls end how and whichever timers fire: the checker
    is always called again. *)
Theorem started_checker_keeps_one_watchdog (fbs : FBS.t) (c : FBS.Config)
    (es : list event) :
  FBS.config fbs = Some c ->
  truthy (FBS.enableOnlineChecks c) = true ->
  exists s,
    Startup.start (FBS.Resolved fbs) = Ok s
    /\ Startup.registered s = Some fbs
    /\ size (armed_of WatchdogTimer (run es (Startup.monitor s))) = 1%nat.
Proof.
  intros Hc Hen. unfold Startup.start. rewrite Hc, Hen.
  eexists. split; [reflexivity |]. split; [reflexivity |]. simpl.
  change (run es (checkOnlineState boot)) with (run (Start :: es) boot).
  pose proof (at_most_one_watchdog (Start :: es)) as Hle.
  destruct (run_keeps_watchdog es (checkOnlineState boot)) as [_ Hw].
  { apply checkOnlineState_arms_watchdog. split; simpl; [done |].
    intros; by simplify_map_eq. }
  { apply checkOnlineState_arms_watchdog. split; simpl; [done |].
    intros; by simplify_map_eq. }
  change (run es (checkOnlineState boot)) with (run (Start :: es) boot) in Hw.
  destruct Hw as (w & d & _ & Hwa).
  assert (armed_of WatchdogTimer (run (Start :: es) boot) !! w
          = Some (WatchdogTimer, d)) as Hin.
  { unfold armed_of. by apply map_lookup_filter_Some. }
  destruct (size (armed_of WatchdogTimer (run (Start :: es) boot))) as [| [| n]] eqn:Hs;
    [| done | lia].
  apply map_size_empty_iff in Hs. rewrite Hs in Hin. by simplify_map_eq.
Qed.

Lemma started_checker_keeps_one_watchdog_witness :
  exists s,
    Startup.start (FBS.Resolved fbs1) = Ok s
    /\ Startup.registered s = Some fbs1
    /\ size (armed_of WatchdogTimer (run watchdog_race (Startup.monitor s)))
       = 1%nat.
Proof.
  apply (started_checker_keeps_one_watchdog fbs1 _ watchdog_race eq_refl).
  reflexivity.
Defined.

Lemma poll_inv_clear id m : poll_inv m -> poll_inv (clearTimeout id m).
Proof.
  intros (Hp & Ha & Hf). split; [done |]. split; simpl.
  - intros id' d H. apply lookup_delete_Some in H as [_ H]. eauto.
  - intros id' Hle. apply lookup_delete_None. right. auto.
Qed.

Lemma poll_inv_checkOnlineState m :
  poll_inv m -> pending m = 0%nat -> poll_inv (checkOnlineState m).
Proof.
  intros Hm Hp0. unfold checkOnlineState.
  set (m1 := match ensureCheckOnlineStateTimeout m with
             | Some id => clearTimeout id m
             | None => m
             end).
  assert (poll_inv m1 /\ pending m1 = 0%nat) as [(Hp & Ha & Hf) Hp1].
  { subst m1. destruct (ensureCheckOnlineStateTimeout m); [| done].
    split; [by apply poll_inv_clear | done]. }
  clearbody m1. simpl.
  destruct (checkOnlineStateTimeout m1) as [c |] eqn:Heq; simpl.
  - split; [simpl; lia |]. split; simpl.
    + intros id d H. apply lookup_delete_Some in H as [Hne H].
      apply lookup_insert_Some in H as [[_ ?] | [_ H]]; [done |].
      apply Ha in H as [H _]. congruence.
    + intros id Hle. apply lookup_delete_None. right.
      rewrite lookup_insert_ne by lia. apply Hf. lia.
  - split; [simpl; lia |]. split; simpl.
    + intros id d H.
      apply lookup_insert_Some in H as [[_ ?] | [_ H]]; [done |].
      apply Ha in H as [H _]. congruence.
    + intros id Hle. rewrite lookup_insert_ne by lia. apply Hf. lia.
Qed.

Lemma poll_inv_run es :
  forall m, poll_inv m -> sequential es m -> poll_inv (run es m).
Proof.
  induction es as [| e es IH]; intros m Hm Hs; simpl; [done |].
  destruct Hs as [He Hs]. apply IH; [| done].
  destruct e as [| id | now o]; cbn [step].
  - by apply poll_inv_checkOnlineState.
  - unfold timer_fires. destruct (armed m !! id); [| done].
    apply poll_inv_checkOnlineState; [by apply poll_inv_clear | done].
  - unfold poll_settles. destruct (pending m) as [| n] eqn:Hp; [done |].
    destruct Hm as (Hle & Ha & Hf). rewrite Hp in Hle.
    assert (n = 0%nat) as -> by lia.
    assert (forall id d, armed m !! id <> Some (PollTimer, d)) as Hnone.
    { intros id d H. apply Ha in H as [_ H]. lia. }
    destruct (settled now (onlineState m) o) as [eff |]; simpl.
    + split; [simpl; lia |]. split; simpl.
      * intros id d H.
        apply lookup_insert_Some in H as [[<- _] | [_ H]]; [done |].
        by apply Hnone in H.
      * intros id Hle'. rewrite lookup_insert_ne by lia. apply Hf. lia.
    + split; [simpl; lia |]. split; simpl; [| done].
      intros id d H. by apply Hnone in H.
Qed.

(** X6.  As long as [checkOnlineState] is only called while no poll waits for
    its continuation (no timer fires during a poll), the comment of line
    348 holds: in every such run from the start of the plugin at most one
    poll timer is armed, and at most one poll is under way. *)
Theorem sequential_run_has_one_poll_timer (es : list event) :
  sequential es boot ->
  (size (armed_of PollTimer (run es boot)) <= 1)%nat
  /\ (pending (run es boot) <= 1)%nat.
Proof.
  intros Hs.
  assert (poll_inv (run es boot)) as (Hp & Ha & _).
  { apply poll_inv_run; [| done].
    split; [simpl; lia |]. split; simpl; intros; by simplify_map_eq. }
  split; [| done].
  set (m := run es boot) in *. unfold armed_of.
  destruct (checkOnlineStateTimeout m) as [c |] eqn:Hc.
  - transitivity (size (filter (fun kv : nat * (TimerKind * Z) => kv.1 = c) (armed m))).
    + apply map_subseteq_size, map_subseteq_spec.
      intros id [k d] H. apply map_lookup_filter_Some in H as [H Hk].
      simpl in Hk. subst k. apply map_lookup_filter_Some. split; [done |].
      simpl. apply Ha in H as [H _]. congruence.
    + destruct (armed m !! c) as [x |] eqn:Hx.
      * rewrite <- (insert_delete_id (armed m) c x Hx).
        rewrite map_filter_insert_True by done.
        rewrite map_size_insert_None
          by (apply map_lookup_filter_None; left; apply lookup_delete_eq).
        rewrite (map_empty_filter_2 _ (delete c (armed m))); [done |].
        intros id y H Hid. simpl in Hid. subst id.
        by rewrite lookup_delete_eq in H.
      * rewrite (map_empty_filter_2 _ (armed m)); [rewrite map_size_empty; lia |].
        intros id y H Hid. simpl in Hid. congruence.
  - rewrite (map_empty_filter_2 _ (armed m)); [rewrite map_size_empty; lia |].
    intros id [k d] H Hk. simpl in Hk. subst k.
    apply Ha in H as [H _]. congruence.
Qed.

Lemma sequential_run_has_one_poll_timer_witness :
  (size (armed_of PollTimer
           (run [Start; Settles 1 (CreateRejected unreachable); Fires 1;
                 Settles 2 (CreateResolved fbs1 (FBS.Resolved online_response));
                 Fires 0]
                boot)) <= 1)%nat
  /\ (pending (run [Start; Settles 1 (CreateRejected unreachable); Fires 1;
                    Settles 2 (CreateResolved fbs1
                                              (FBS.Resolved online_response));
                    Fires 0]
                   boot) <= 1)%nat.
Proof.
  apply (sequential_run_has_one_poll_timer
           [Start; Settles 1 (CreateRejected unreachable); Fires 1;
            Settles 2 (CreateResolved fbs1 (FBS.Resolved online_response));
            Fires 0]).
  vm_compute. repeat split.
Defined.

End timer_coverage.

(** ** The Facade and the handlers *)

Section handler_coverage.
Import JS Data Examples Plugin.

Lemma is_str_true s v : is_str s v = true <-> v = JStr s.
Proof.
  destruct v as [| | b | n | t]; simpl; try (split; [done | discriminate]).
  rewrite String.eqb_eq. split; [by intros -> | by intros [= ->]].
Qed.

(** X7.  [login] (97-126) resolves exactly when the transport reports no error,
    patron and password are both marked 'Y', and not all four privileges
    are denied.  When the transport reports no error and the login is
    refused, the reason is one of the two login messages and the refusal
    is reported on [fbs.action.result] as not failed. *)
Theorem login_resolves_iff (err : option Error) (res : FBS.PatronStatus) :
  (FBS.settlement (FBS.login err res) = Some (FBS.Resolved ())
   <-> err = None
       /\ FBS.validPatron res = JStr "Y"
       /\ FBS.validPatronPassword res = JStr "Y"
       /\ truthy (FBS.chargePrivDenied res) && truthy (FBS.renewalPrivDenied res)
          && truthy (FBS.recallPrivDenied res) && truthy (FBS.holdPrivDenied res)
          = false)
  /\ (forall e,
         FBS.settlement (FBS.login err res) = Some (FBS.Rejected e) ->
         err = Some e
         \/ (err = None
             /\ (message e = "login.invalid_login_blocked"
                 \/ message e = "login.invalid_login_error")
             /\ FBS.reports (FBS.login err res)
                = [Bus.Emit "fbs.action.result" (PActionResult "Login" false)])).
Proof.
  unfold FBS.login. destruct err as [e0 |].
  - split; [split; [done | by intros [? _]] |].
    intros e [= ->]. by left.
  - destruct (is_str "Y" (FBS.validPatron res)) eqn:Hv; simpl.
    + destruct (is_str "Y" (FBS.validPatronPassword res)) eqn:Hp; simpl.
      * apply is_str_true in Hv, Hp.
        destruct (_ && _) eqn:Hb; simpl.
        -- split; [split; [done | by intros (_ & _ & _ & ?)] |].
           intros e [= <-]. right. repeat split. by left.
        -- split; [done |]. by intros e [=].
      * split; [split; [done |] |].
        -- intros (_ & _ & Hp' & _). apply is_str_true in Hp'. congruence.
        -- intros e [= <-]. right. repeat split. by right.
    + split; [split; [done |] |].
      * intros (_ & Hv' & _). apply is_str_true in Hv'. congruence.
      * intros e [= <-]. right. repeat split. by right.
Qed.

(** When the Facade call of a request resolves, the continuation of the
    handler publishes exactly one event besides the Facade's report: on
    the caller's [busEvent], carrying the time of the continuation and,
    unchanged, what the transport answered (for a login the time only). *)
Theorem success_is_answered_once now0 now1 fbs (r : request) :
  facade_rejection r = None ->
  serve now0 now1 (FBS.Resolved fbs) r
  = facade_reports r
    ++ [ Bus.Emit (busEvent (request_data r))
           match r with
           | Login _ _ _ => PTimestamp now1
           | LibraryStatus _ _ res => PResults now1 res
           | Patron _ _ res => PPatron now1 res
           | Checkout _ _ res | CheckIn _ _ res | Renew _ _ res
           | RenewAll _ _ res | Block _ _ res => PResult now1 res
           end ].
Proof.
  intros Hres.
  destruct r as [data err res | data err res | data err res | data err res
                 | data err res | data err res | data err res | data err res];
    cbn [serve prepared request_data facade_reports facade_rejection] in *;
    unfold continue, rejection in *;
    try (destruct err; [discriminate Hres | done]).
  destruct (FBS.settlement (FBS.login err res)) as [[[] | e] |] eqn:Hs;
    [done | discriminate Hres |].
  unfold FBS.login in Hs. destruct err; [done |].
  by destruct (_ && _); [destruct (_ && _) |].
Qed.

Lemma success_is_answered_once_witness :
  serve 1000 1001 (FBS.Resolved fbs1) (Renew checkout1 None (JStr "renewed"))
  = [ Bus.Emit "fbs.action.result" (PActionResult "Renew" false);
      Bus.Emit "fbs.checkout.success.a" (PResult 1001 (JStr "renewed")) ].
Proof.
  apply (success_is_answered_once 1000 1001 fbs1
           (Renew checkout1 None (JStr "renewed"))).
  reflexivity.
Defined.

Lemma or_false_idem (q : jsval) :
  or (or q (JBool false)) (JBool false) = or q (JBool false).
Proof. unfold or. by destruct (truthy q) eqn:Hq; [rewrite Hq |]. Qed.

Lemma or_now_idem (v : jsval) (now now' : Z) :
  now <> 0%Z -> or (or v (JNum now)) (JNum now') = or v (JNum now).
Proof.
  intros Hnow. unfold or. destruct (truthy v) eqn:Hv; [by rewrite Hv |].
  simpl. by destruct (Z.eqb_spec now 0).
Qed.

(** X9.  The job handed to the queue is a fixed point of the handler's
    defaults: provided the clock of the first attempt did not read 0,
    handling the job's [data] again at any later time leaves it as it is
    (same transaction or check-in date, same due date, same file), and the
    fallback it would take is the very same one.  The job carries
    [queued = false]: replayed without [queued] being set, a failure that
    is again 'FBS is offline' meets the conditions of the fallback
    again. *)
Theorem job_is_replayed_as_recorded now0 now1 (d : Request)
    (err err' : option Error) (res res' : jsval) (e : Error) :
  now0 <> 0%Z ->
  let co := set_file (username d) (fbs_checkout now0 d) in
  let ci := set_file (transaction d) (fbs_checkin now0 d) in
  fbs_checkout now1 co = co
  /\ fallback_of now1 (Checkout co err' res')
     = fallback_of now0 (Checkout d err res)
  /\ fbs_checkin now1 ci = ci
  /\ fallback_of now1 (CheckIn ci err' res')
     = fallback_of now0 (CheckIn d err res)
  /\ (fallback_applies (Checkout d err res) e = true ->
      fallback_applies (Checkout co err' res') e = true)
  /\ (fallback_applies (CheckIn d err res) e = true ->
      fallback_applies (CheckIn ci err' res') e = true).
Proof.
  intros Hnow co ci.
  assert (fbs_checkout now1 co = co) as Hco.
  { subst co. unfold fbs_checkout, set_file. cbn.
    rewrite or_false_idem, or_now_idem by done.
    by destruct (noBlockDueDate d). }
  assert (fbs_checkin now1 ci = ci) as Hci.
  { subst ci. unfold fbs_checkin, set_file. cbn.
    by rewrite or_false_idem, or_now_idem. }
  split; [done |]. split; [by cbn [fallback_of]; rewrite Hco |].
  split; [done |]. split; [by cbn [fallback_of]; rewrite Hci |].
  cbn [fallback_applies]. subst co ci. cbn.
  split; intros [-> Hq%negb_true_iff]%andb_true_iff; unfold or;
    by rewrite Hq.
Qed.

Lemma job_is_replayed_as_recorded_witness :
  let co := set_file (username checkout1) (fbs_checkout 1000 checkout1) in
  fbs_checkout 999999 co = co
  /\ transactionDate co = JNum 1000
  /\ noBlockDueDate co = Some (JNum (1000 + 31 * 24 * 60 * 60 * 1000)).
Proof.
  destruct (job_is_replayed_as_recorded 1000 999999 checkout1 None None
              JUndefined JUndefined unreachable) as (Hco & _); [done |].
  split; [exact Hco | split; reflexivity].
Defined.

(** X10.  Every offline check-in record is dated: with a clock that does not
    read 0, the [date] of the record is the request's [checkedInDate] when
    it has one and the time of the request otherwise, never a value that
    counts as missing. *)
Theorem checkin_record_is_dated now (d : Request) :
  now <> 0%Z ->
  let date := r_date (a_obj (checkin_append (fbs_checkin now d))) in
  truthy date = true
  /\ date = (if truthy (checkedInDate d) then checkedInDate d else JNum now).
Proof.
  intros Hnow. cbn. unfold or.
  destruct (truthy (checkedInDate d)) eqn:Hd; [done |].
  simpl. by destruct (Z.eqb_spec now 0).
Qed.

Lemma checkin_record_is_dated_witness :
  r_date (a_obj (checkin_append (fbs_checkin 2000 checkin1))) = JNum 2000.
Proof.
  destruct (checkin_record_is_dated 2000 checkin1) as [_ H]; [done |].
  exact H.
Defined.

(** X11.  The names under which one call waits never collide with each other:
    for all strings returned by [uniqid()], the success name of
    [FBS.create] differs from every error name, and two success names (or
    two error names) are equal only for equal strings. *)
Theorem create_names_collide_only_for_equal_ids (u u' : string) :
  FBS.create_busEvent u <> FBS.create_errorEvent u'
  /\ (FBS.create_busEvent u = FBS.create_busEvent u' <-> u = u')
  /\ (FBS.create_errorEvent u = FBS.create_errorEvent u' <-> u = u').
Proof.
  split; [by unfold FBS.create_busEvent, FBS.create_errorEvent; cbn |].
  split; (split; [by intros H%String.app_inj | by intros ->]).
Qed.

(** X12.  The four event names of the fallback are kept apart by their prefixes
    for all items: a stored name never equals an error name, a checkout
    name never equals a check-in name, none of them is [storage.append],
    a job event or [fbs.action.result]; two names of the same kind are
    equal exactly when the item identifiers are. *)
Theorem fallback_names_collide_only_for_equal_items (d d' : Request) :
  checkout_stored d <> checkout_error d'
  /\ checkout_stored d <> checkin_stored d'
  /\ checkout_stored d <> checkin_error d'
  /\ checkout_error d <> checkin_stored d'
  /\ checkout_error d <> checkin_error d'
  /\ checkin_stored d <> checkin_error d'
  /\ Forall (fun n => n ∉ [ "storage.append"; "offline.add.checkout";
                            "offline.add.checkin"; "fbs.action.result" ])
            [ checkout_stored d; checkout_error d;
              checkin_stored d; checkin_error d ]
  /\ (checkout_stored d = checkout_stored d'
      <-> itemIdentifier d = itemIdentifier d')
  /\ (checkout_error d = checkout_error d'
      <-> itemIdentifier d = itemIdentifier d')
  /\ (checkin_stored d = checkin_stored d'
      <-> itemIdentifier d = itemIdentifier d')
  /\ (checkin_error d = checkin_error d'
      <-> itemIdentifier d = itemIdentifier d').
Proof.
  unfold checkout_stored, checkout_error, checkin_stored, checkin_error.
  repeat (split; [by cbn |]).
  split.
  { repeat constructor; intros Hin; apply list_elem_of_In in Hin; cbn in Hin;
      intuition discriminate. }
  repeat split; try (by intros H%String.app_inj); by intros ->.
Qed.

End handler_coverage.

(** ** The subscriptions a fallback leaves behind *)

Section leftover_handlers.
Import JS Data Examples Plugin.

Lemma stored_then_error (stored error : string) (h1 h2 : Bus.handler)
    (L : gmap string (list Bus.handler)) fuel now now' p p' l n q n' q' :
  stored <> error ->
  Bus.handler_run now h1 p = [(n, q)] ->
  n <> error ->
  L !! n = None ->
  Bus.handler_run now' h2 p' = [(n', q')] ->
  L !! n' = None ->
  Bus.log
    (Bus.emit (S fuel) now' error p'
       (Bus.emit (S fuel) now stored p
          (Bus.mkState (<[error := [h2]]> (<[stored := [h1]]> L)) l)))
  = l ++ [(stored, p); (n, q); (error, p'); (n', q')].
Proof.
  intros Hse Hrun Hn HLn Hrun' HLn'.
  rewrite (emit_one_listener _ now stored p _ h1 n q); [| | done |];
    cbn [Bus.listeners Bus.log].
  - rewrite (emit_one_listener _ now' error p' _ h2 n' q'); [| | done |];
      cbn [Bus.listeners Bus.log].
    + by rewrite <- app_assoc.
    + by rewrite lookup_delete_ne, lookup_insert_eq.
    + destruct (decide (error = n')) as [<- | Hne];
        [by rewrite lookup_delete_eq |].
      rewrite lookup_delete_ne by done.
      destruct (decide (stored = n')) as [<- | Hne'];
        [by rewrite lookup_delete_eq |].
      by rewrite lookup_delete_ne, !lookup_insert_ne.
  - by rewrite lookup_insert_ne, lookup_insert_eq.
  - destruct (decide (stored = n)) as [<- | Hne];
      [by rewrite lookup_delete_eq |].
    by rewrite lookup_delete_ne, !lookup_insert_ne.
Qed.

(** X13.  The pair of one-shot handlers of a fallback is not cleaned up: when
    the store has confirmed the append and the caller has its provisional
    result, the error handler is still subscribed, and a later publication
    on the item's error event (the answer to another append for the same
    item) sends that error to the same caller as well. *)
Theorem confirmed_fallback_still_forwards_errors
    (fuel : nat) now0 now1 now2 now3 fbs (r : request) (e : Error)
    (f : fallback) (p p' : payload) (b : Bus.state) :
  facade_rejection r = Some e ->
  fallback_applies r e = true ->
  fallback_of now0 r = Some f ->
  Bus.unsubscribed
    [ "fbs.action.result"; "storage.append"; f_job f; f_stored f; f_error f;
      busEvent (request_data r); errorEvent (request_data r) ] b ->
  busEvent (request_data r) <> f_error f ->
  let served :=
    Bus.run (S fuel) now1 (serve now0 now1 (FBS.Resolved fbs) r) b in
  let confirmed := Bus.emit (S fuel) now2 (f_stored f) p served in
  Bus.log (Bus.emit (S fuel) now3 (f_error f) p' confirmed)
  = Bus.log served
    ++ [ (f_stored f, p);
         (busEvent (request_data r), PProvisional now2 (f_material f));
         (f_error f, p');
         (errorEvent (request_data r), p') ].
Proof.
  intros Hrej Hyes Hf Hb Hbus served confirmed. subst confirmed served.
  destruct b as [L l]. unfold Bus.unsubscribed in Hb. cbn [Bus.listeners] in Hb.
  repeat match goal with
         | H : Forall _ (_ :: _) |- _ => apply Forall_cons in H as [? H]
         end.
  destruct r as [data err res | data err res | data err res | data err res
                 | data err res | data err res | data err res | data err res];
    try discriminate Hyes; cbn [request_data] in *.
  - cbn [fallback_of] in Hf. injection Hf as <-.
    cbn [f_stored f_error f_job f_append f_material f_data] in *.
    apply settle_then_report_rejection in Hrej as ->.
    rewrite serve_checkout_fallback by done. cbv zeta.
    rewrite fallback_run;
      [| by (try done; unfold checkout_stored, checkout_error; cbn;
             intros ?; simplify_eq)..].
    cbn [Bus.log].
    apply stored_then_error; done.
  - cbn [fallback_of] in Hf. injection Hf as <-.
    cbn [f_stored f_error f_job f_append f_material f_data] in *.
    apply settle_then_report_rejection in Hrej as ->.
    rewrite serve_checkin_fallback by done. cbv zeta.
    rewrite fallback_run;
      [| by (try done; unfold checkin_stored, checkin_error; cbn;
             intros ?; simplify_eq)..].
    cbn [Bus.log].
    apply stored_then_error; done.
Qed.

Lemma confirmed_fallback_still_forwards_errors_witness :
  let served :=
    Bus.run 2 2001
      (serve 2000 2001 (FBS.Resolved fbs0)
             (CheckIn checkin1 (Some unreachable) JUndefined))
      Bus.empty in
  let confirmed :=
    Bus.emit 2 2005 "fbs.checkin.offline.storeditem7" PStored served in
  Bus.log (Bus.emit 2 2009 "fbs.checkin.offline.erroritem7"
                    (PError disk_full) confirmed)
  = Bus.log served
    ++ [ ("fbs.checkin.offline.storeditem7", PStored);
         ("fbs.checkin.success.a",
          PProvisional 2005
            (mkMaterial "item7" true "1" "item7" "fbs.offline.title" None));
         ("fbs.checkin.offline.erroritem7", PError disk_full);
         ("fbs.checkin.error.a", PError disk_full) ].
Proof.
  apply (confirmed_fallback_still_forwards_errors 1 2000 2001 2005 2009 fbs0
           (CheckIn checkin1 (Some unreachable) JUndefined) unreachable
           _ PStored (PError disk_full) Bus.empty eq_refl eq_refl eq_refl).
  - repeat constructor.
  - discriminate.
Defined.

End leftover_handlers.

(** ** Two fallbacks for one item *)

Section shared_names.
Import JS Data Examples Plugin.

Lemma emit_two_listeners fuel now name p (b : Bus.state) h h' n q n' q' :
  Bus.listeners b !! name = Some [h; h'] ->
  Bus.handler_run now h p = [(n, q)] ->
  Bus.handler_run now h' p = [(n', q')] ->
  delete name (Bus.listeners b) !! n = None ->
  delete name (Bus.listeners b) !! n' = None ->
  Bus.emit (S fuel) now name p b
  = Bus.mkState (delete name (Bus.listeners b))
                (Bus.log b ++ [(name, p); (n, q); (n', q')]).
Proof.
  intros Hh Hrun Hrun' Hn Hn'. simpl. rewrite Hh. simpl.
  rewrite Hrun, Hrun'. simpl.
  rewrite (emit_no_listener _ _ n) by done. simpl.
  rewrite (emit_no_listener _ _ n') by done. simpl.
  by rewrite <- !app_assoc.
Qed.

Variables (stored error job : string) (h1 h2 h1' h2' : Bus.handler).
Variables (a ap j a' ap' j' : payload) (L : gmap string (list Bus.handler)).
Hypothesis stored_error : stored <> error.
Hypothesis append_stored : "storage.append" <> stored.
Hypothesis append_error : "storage.append" <> error.
Hypothesis report_stored : "fbs.action.result" <> stored.
Hypothesis report_error : "fbs.action.result" <> error.
Hypothesis job_stored : job <> stored.
Hypothesis job_error : job <> error.
Hypothesis free_report : L !! "fbs.action.result" = None.
Hypothesis free_append : L !! "storage.append" = None.
Hypothesis free_job : L !! job = None.
Hypothesis free_stored : L !! stored = None.
Hypothesis free_error : L !! error = None.

Lemma two_fallbacks_run fuel now l :
  Bus.run fuel now
    ([ Bus.Emit "fbs.action.result" a; Bus.Once stored h1; Bus.Once error h2;
       Bus.Emit "storage.append" ap; Bus.Emit job j ]
     ++ [ Bus.Emit "fbs.action.result" a'; Bus.Once stored h1';
          Bus.Once error h2'; Bus.Emit "storage.append" ap';
          Bus.Emit job j' ]) (Bus.mkState L l)
  = Bus.mkState
      (<[error := [h2; h2']]>
         (<[stored := [h1; h1']]>
            (<[error := [h2]]> (<[stored := [h1]]> L))))
      (l ++ [ ("fbs.action.result", a); ("storage.append", ap); (job, j);
              ("fbs.action.result", a'); ("storage.append", ap'); (job, j') ]).
Proof.
  unfold Bus.run. rewrite foldl_app.
  change (foldl (Bus.run_op fuel now) (Bus.mkState L l) ?ops)
    with (Bus.run fuel now ops (Bus.mkState L l)).
  rewrite fallback_run by done.
  cbn [foldl Bus.run_op].
  rewrite (emit_no_listener _ _ "fbs.action.result")
    by (cbn [Bus.listeners]; by rewrite !lookup_insert_ne).
  unfold Bus.once at 2. cbn [Bus.listeners Bus.log].
  rewrite lookup_insert_ne, lookup_insert_eq by done. cbn [default app].
  unfold Bus.once. cbn [Bus.listeners Bus.log].
  rewrite lookup_insert_ne, lookup_insert_eq by done. cbn [default app].
  rewrite (emit_no_listener _ _ "storage.append")
    by (cbn [Bus.listeners]; by rewrite !lookup_insert_ne).
  rewrite (emit_no_listener _ _ job)
    by (cbn [Bus.listeners]; by rewrite !lookup_insert_ne).
  cbn [Bus.listeners Bus.log]. by rewrite <- !app_assoc.
Qed.

Lemma two_fallbacks_confirmed fuel now p l n q n' q' :
  Bus.handler_run now h1 p = [(n, q)] ->
  Bus.handler_run now h1' p = [(n', q')] ->
  n <> error -> n' <> error ->
  L !! n = None -> L !! n' = None ->
  Bus.log
    (Bus.emit (S fuel) now stored p
       (Bus.mkState
          (<[error := [h2; h2']]>
             (<[stored := [h1; h1']]>
                (<[error := [h2]]> (<[stored := [h1]]> L)))) l))
  = l ++ [(stored, p); (n, q); (n', q')].
Proof.
  intros Hrun Hrun' Hn Hn' HL HL'.
  assert (forall k, k <> error -> L !! k = None ->
            delete stored
              (<[error := [h2; h2']]>
                 (<[stored := [h1; h1']]>
                    (<[error := [h2]]> (<[stored := [h1]]> L)))) !! k = None)
    as Hfree.
  { intros k Hk HLk. destruct (decide (stored = k)) as [<- | Hne];
      [by rewrite lookup_delete_eq |].
    by rewrite lookup_delete_ne, !lookup_insert_ne. }
  rewrite (emit_two_listeners _ _ _ _ _ h1 h1' n q n' q'); try done;
    cbn [Bus.listeners]; [| by apply Hfree..].
  by rewrite lookup_insert_ne, lookup_insert_eq.
Qed.

End shared_names.

Section shared_names_theorem.
Import JS Data Examples Plugin.

Lemma fallback_of_applies (r : request) (e : Error) :
  fallback_applies r e = true ->
  facade_rejection r = Some e ->
  (exists d res, r = Checkout d (Some e) res)
  \/ (exists d res, r = CheckIn d (Some e) res).
Proof.
  intros Hyes Hrej.
  destruct r as [data err res | data err res | data err res | data err res
                 | data err res | data err res | data err res | data err res];
    try discriminate Hyes;
    apply settle_then_report_rejection in Hrej as ->; eauto.
Qed.

(** X14.  Any two fallbacks that wait on the same stored event (two checkouts,
    or two check-ins, of the same item) are both answered by one
    confirmation of the store: a single publication on the stored event
    delivers a provisional result to each of the two callers, in the order
    the requests were handled. *)
Theorem one_confirmation_answers_both
    (fuel : nat) now0 now0' now1 now2 fbs (r1 r2 : request) (e1 e2 : Error)
    (f1 f2 : fallback) (p : payload) (b : Bus.state) :
  facade_rejection r1 = Some e1 -> fallback_applies r1 e1 = true ->
  fallback_of now0 r1 = Some f1 ->
  facade_rejection r2 = Some e2 -> fallback_applies r2 e2 = true ->
  fallback_of now0' r2 = Some f2 ->
  f_stored f1 = f_stored f2 ->
  Bus.unsubscribed
    [ "fbs.action.result"; "storage.append"; f_job f1; f_stored f1; f_error f1;
      busEvent (request_data r1); busEvent (request_data r2) ] b ->
  busEvent (request_data r1) <> f_error f1 ->
  busEvent (request_data r2) <> f_error f1 ->
  let served :=
    Bus.run (S fuel) now1
      (serve now0 now1 (FBS.Resolved fbs) r1
       ++ serve now0' now1 (FBS.Resolved fbs) r2) b in
  Bus.log (Bus.emit (S fuel) now2 (f_stored f1) p served)
  = Bus.log served
    ++ [ (f_stored f1, p);
         (busEvent (request_data r1), PProvisional now2 (f_material f1));
         (busEvent (request_data r2), PProvisional now2 (f_material f2)) ].
Proof.
  intros Hrej1 Hyes1 Hf1 Hrej2 Hyes2 Hf2 Hsame Hb Hbus1 Hbus2 served.
  subst served.
  destruct b as [L l]. unfold Bus.unsubscribed in Hb. cbn [Bus.listeners] in Hb.
  repeat match goal with
         | H : Forall _ (_ :: _) |- _ => apply Forall_cons in H as [? H]
         end.
  destruct (fallback_of_applies r1 e1 Hyes1 Hrej1)
    as [(d1 & res1 & ->) | (d1 & res1 & ->)];
    destruct (fallback_of_applies r2 e2 Hyes2 Hrej2)
      as [(d2 & res2 & ->) | (d2 & res2 & ->)];
    cbn [fallback_of] in Hf1, Hf2; injection Hf1 as <-; injection Hf2 as <-;
    cbn [f_stored f_error f_job f_append f_material f_data request_data] in *;
    try (exfalso; unfold checkout_stored, checkin_stored in Hsame;
         cbn in Hsame; by simplify_eq).
  - assert (itemIdentifier d2 = itemIdentifier d1) as Hitem.
    { unfold checkout_stored in Hsame. cbn in Hsame.
      by apply String.app_inj in Hsame. }
    rewrite !serve_checkout_fallback by done. cbv zeta.
    replace (checkout_stored (fbs_checkout now0' d2))
      with (checkout_stored (fbs_checkout now0 d1))
      by (unfold checkout_stored; cbn; by rewrite Hitem).
    replace (checkout_error (fbs_checkout now0' d2))
      with (checkout_error (fbs_checkout now0 d1))
      by (unfold checkout_error; cbn; by rewrite Hitem).
    rewrite two_fallbacks_run;
      [| by (try done; unfold checkout_stored, checkout_error; cbn;
             intros ?; simplify_eq)..].
    cbn [Bus.log].
    apply two_fallbacks_confirmed; try done;
      unfold checkout_stored, checkout_error; cbn; intros ?; simplify_eq.
  - assert (itemIdentifier d2 = itemIdentifier d1) as Hitem.
    { unfold checkin_stored in Hsame. cbn in Hsame.
      by apply String.app_inj in Hsame. }
    rewrite !serve_checkin_fallback by done. cbv zeta.
    replace (checkin_stored (fbs_checkin now0' d2))
      with (checkin_stored (fbs_checkin now0 d1))
      by (unfold checkin_stored; cbn; by rewrite Hitem).
    replace (checkin_error (fbs_checkin now0' d2))
      with (checkin_error (fbs_checkin now0 d1))
      by (unfold checkin_error; cbn; by rewrite Hitem).
    rewrite two_fallbacks_run;
      [| by (try done; unfold checkin_stored, checkin_error; cbn;
             intros ?; simplify_eq)..].
    cbn [Bus.log].
    apply two_fallbacks_confirmed; try done;
      unfold checkin_stored, checkin_error; cbn; intros ?; simplify_eq.
Qed.

Lemma one_confirmation_answers_both_witness :
  let served :=
    Bus.run 2 1001
      (serve 1000 1001 (FBS.Resolved fbs0)
             (Checkout checkout1 (Some unreachable) JUndefined)
       ++ serve 1000 1001 (FBS.Resolved fbs0)
             (Checkout checkout2 (Some unreachable) JUndefined))
      Bus.empty in
  Bus.log (Bus.emit 2 1005 "fbs.checkout.offline.storeditem7" PStored served)
  = Bus.log served
    ++ [ ("fbs.checkout.offline.storeditem7", PStored);
         ("fbs.checkout.success.a",
          PProvisional 1005 (checkout_material (fbs_checkout 1000 checkout1)));
         ("fbs.checkout.success.b",
          PProvisional 1005 (checkout_material (fbs_checkout 1000 checkout2))) ].
Proof.
  apply (one_confirmation_answers_both 1 1000 1000 1001 1005 fbs0
           (Checkout checkout1 (Some unreachable) JUndefined)
           (Checkout checkout2 (Some unreachable) JUndefined)
           unreachable unreachable _ _ PStored Bus.empty
           eq_refl eq_refl eq_refl eq_refl eq_refl eq_refl eq_refl).
  - repeat constructor.
  - discriminate.
  - discriminate.
Defined.

End shared_names_theorem.

(** ** The checker and the handlers with [FBS.create] on the bus *)

Section with_create.
Import JS Data Monitor Examples Plugin.

Lemma settled_emits now st o eff :
  settled now st o = Ok eff ->
  Forall (fun e =>
            (e.1 = "fbs.offline"
             /\ exists st', e.2 = POnline now st' /\ online st' = false)
            \/ e.1 = "logger.info") (emits eff).
Proof.
  destruct o as [err | fbs status]; simpl.
  - intros [= <-]. simpl. constructor; [by right | constructor].
  - rewrite create_resolved_not_configured by apply fbs_has_no_endpoint.
    intros [= <-]. simpl. constructor; [| constructor].
    left. split; [done |]. by eexists.
Qed.

Lemma checker_run_state es :
  forall m, (Checker.run es m).1 = run (Checker.erase <$> es) m.
Proof.
  induction es as [| e es IH]; intros m; simpl; [done |].
  specialize (IH (step m (Checker.erase e))).
  by destruct (Checker.run es (step m (Checker.erase e))).
Qed.

(** X2.  In every run of the checker from the start of the plugin, whatever
    timers fire, whatever configurations and status answers arrive, all it
    does on the bus is: the two one-shot subscriptions and the
    [ctrl.config.fbs] request of [FBS.create] for each poll, [fbs.offline]
    carrying [online = false], and [logger.info].  It never publishes
    [fbs.online], and threshold and timeouts stay at their initial values
    5, 5000, 30000 and 300000: the values of the configuration are never
    taken over. *)
Theorem checker_on_the_bus (es : list Checker.event) :
  Forall (fun o =>
            match o with
            | Bus.Once n h =>
                (exists u, n = FBS.create_busEvent u /\ h = Bus.CreateLoaded)
                \/ (exists u, n = FBS.create_errorEvent u /\ h = Bus.CreateError)
            | Bus.Emit n p =>
                (n = "ctrl.config.fbs"
                 /\ exists u1 u2,
                      p = PConfigRequest (FBS.create_busEvent u1)
                                         (FBS.create_errorEvent u2))
                \/ (n = "fbs.offline"
                    /\ exists ts st, p = POnline ts st /\ online st = false)
                \/ n = "logger.info"
            end) (Checker.run es boot).2
  /\ threshold (onlineState (Checker.run es boot).1) = 5%Z
  /\ onlineTimeout (onlineState (Checker.run es boot).1) = 5000%Z
  /\ offlineTimeout (onlineState (Checker.run es boot).1) = 30000%Z
  /\ ensureOnlineCheckTimeout (onlineState (Checker.run es boot).1) = 300000%Z.
Proof.
  split.
  - generalize boot. induction es as [| e es IH]; intros m; simpl;
      [constructor |].
    specialize (IH (step m (Checker.erase e))).
    destruct (Checker.run es (step m (Checker.erase e))) as [m' l].
    simpl in *. apply Forall_app. split; [| done].
    assert (forall u1 u2,
               Forall (fun o =>
                         match o with
                         | Bus.Once n h =>
                             (exists u, n = FBS.create_busEvent u
                                        /\ h = Bus.CreateLoaded)
                             \/ (exists u, n = FBS.create_errorEvent u
                                           /\ h = Bus.CreateError)
                         | Bus.Emit n p =>
                             (n = "ctrl.config.fbs"
                              /\ exists u1 u2,
                                   p = PConfigRequest (FBS.create_busEvent u1)
                                                      (FBS.create_errorEvent u2))
                             \/ (n = "fbs.offline"
                                 /\ exists ts st,
                                      p = POnline ts st /\ online st = false)
                             \/ n = "logger.info"
                         end) (FBS.create u1 u2)) as Hcreate.
    { intros u1 u2. unfold FBS.create.
      constructor; [left; eauto |].
      constructor; [right; eauto |].
      constructor; [left; eauto | constructor]. }
    destruct e as [u1 u2 | id u1 u2 | now o]; simpl.
    + apply Hcreate.
    + destruct (armed m !! id); [apply Hcreate | constructor].
    + destruct (pending m); [constructor |].
      destruct (settled now (onlineState m) o) as [eff |] eqn:Heff;
        [| constructor].
      apply settled_emits in Heff. apply Forall_fmap.
      eapply Forall_impl; [exact Heff |].
      intros [k p]; simpl. intros [(-> & st' & -> & Hoff) | ->].
      * right. left. split; [done |]. by exists now, st'.
      * by right; right.
  - rewrite checker_run_state.
    apply (checker_never_goes_online (Checker.erase <$> es)).
Qed.

Lemma emit_silent_listener fuel now name p (b : Bus.state) h :
  Bus.listeners b !! name = Some [h] ->
  Bus.handler_run now h p = [] ->
  Bus.emit (S fuel) now name p b
  = Bus.mkState (delete name (Bus.listeners b)) (Bus.log b ++ [(name, p)]).
Proof. intros Hh Hrun. simpl. rewrite Hh. simpl. by rewrite Hrun. Qed.

Lemma run_unheard fuel now ops :
  forall b,
    Forall (fun o => match o with
                     | Bus.Emit n _ => Bus.listeners b !! n = None
                     | Bus.Once _ _ => False
                     end) ops ->
    Bus.run fuel now ops b
    = Bus.mkState (Bus.listeners b) (Bus.log b ++ Bus.emitted ops).
Proof.
  induction ops as [| o ops IH]; intros b Hall.
  - simpl. rewrite app_nil_r. by destruct b.
  - apply Forall_cons in Hall as [Ho Hall]. destruct o as [n h | n q]; [done |].
    unfold Bus.run. cbn [foldl Bus.run_op].
    rewrite emit_no_listener by done.
    change (foldl (Bus.run_op fuel now) ?b0 ops) with (Bus.run fuel now ops b0).
    rewrite IH by done. cbn [Bus.listeners Bus.log].
    unfold Bus.emitted. cbn [omap]. by rewrite <- app_assoc.
Qed.

Lemma facade_reports_names (r : request) :
  Forall (fun o => exists p, o = Bus.Emit "fbs.action.result" p)
         (facade_reports r).
Proof.
  destruct r as [data err res | data err res | data err res | data err res
                 | data err res | data err res | data err res | data err res];
    cbn [facade_reports];
    try (destruct err; repeat constructor; by eexists).
  unfold FBS.login. destruct err; [repeat constructor; by eexists |].
  destruct (_ && _); [destruct (_ && _) |]; repeat constructor; by eexists.
Qed.

(** X8.  When the Facade call of a request resolves, what the handler does
    on the bus is, in order: the two one-shot subscriptions and the
    [ctrl.config.fbs] request of [FBS.create], the Facade's report, and
    exactly one publication on the caller's [busEvent], carrying the time
    of the continuation and, unchanged, what the transport answered (for a
    login the time only); nothing goes to the error event.  On a bus with
    nothing else subscribed under the events involved, once the
    configuration has been answered on the loaded event and the request
    served, the error handler of [FBS.create] is still subscribed and the
    loaded handler is not. *)
Theorem resolved_request_on_the_bus
    (u1 u2 : string) (fuel : nat) now0 now1 now' fbs (r : request)
    (cfg : payload) (b : Bus.state) :
  facade_rejection r = None ->
  Bus.unsubscribed
    [ FBS.create_busEvent u1; FBS.create_errorEvent u2; "ctrl.config.fbs";
      "fbs.action.result"; busEvent (request_data r) ] b ->
  busEvent (request_data r) <> FBS.create_errorEvent u2 ->
  let answer :=
    Bus.Emit (busEvent (request_data r))
      match r with
      | Login _ _ _ => PTimestamp now1
      | LibraryStatus _ _ res => PResults now1 res
      | Patron _ _ res => PPatron now1 res
      | Checkout _ _ res | CheckIn _ _ res | Renew _ _ res
      | RenewAll _ _ res | Block _ _ res => PResult now1 res
      end in
  let asked := Bus.run (S fuel) now0 (FBS.create u1 u2) b in
  let loaded := Bus.emit (S fuel) now' (FBS.create_busEvent u1) cfg asked in
  let served :=
    Bus.run (S fuel) now1 (serve now0 now1 (FBS.Resolved fbs) r) loaded in
  handle u1 u2 now0 now1 (FBS.Resolved fbs) r
  = FBS.create u1 u2 ++ facade_reports r ++ [answer]
  /\ Bus.log served
     = Bus.log b
       ++ [ ("ctrl.config.fbs",
             PConfigRequest (FBS.create_busEvent u1) (FBS.create_errorEvent u2));
            (FBS.create_busEvent u1, cfg) ]
       ++ Bus.emitted (facade_reports r ++ [answer])
  /\ Bus.listeners served !! FBS.create_errorEvent u2 = Some [Bus.CreateError]
  /\ Bus.listeners served !! FBS.create_busEvent u1 = None.
Proof.
  intros Hres Hb Hbus answer asked loaded served.
  pose proof (success_is_answered_once now0 now1 fbs r Hres) as Hserve.
  fold answer in Hserve.
  split; [unfold handle; by rewrite Hserve |].
  destruct b as [L l]. unfold Bus.unsubscribed in Hb. cbn [Bus.listeners] in Hb.
  repeat match goal with
         | H : Forall _ (_ :: _) |- _ => apply Forall_cons in H as [? H]
         end.
  assert (FBS.create_busEvent u1 <> FBS.create_errorEvent u2) as Hle
    by (unfold FBS.create_busEvent, FBS.create_errorEvent; cbn; intros ?;
        simplify_eq).
  assert ("ctrl.config.fbs" <> FBS.create_busEvent u1
          /\ "ctrl.config.fbs" <> FBS.create_errorEvent u2
          /\ "fbs.action.result" <> FBS.create_busEvent u1
          /\ "fbs.action.result" <> FBS.create_errorEvent u2)
    as (Hc1 & Hc2 & Ha1 & Ha2)
    by (unfold FBS.create_busEvent, FBS.create_errorEvent; cbn;
        repeat split; intros ?; simplify_eq).
  set (M := <[FBS.create_errorEvent u2 := [Bus.CreateError]]>
              (<[FBS.create_busEvent u1 := [Bus.CreateLoaded]]> L)).
  assert (asked
          = Bus.mkState M
              (l ++ [("ctrl.config.fbs",
                      PConfigRequest (FBS.create_busEvent u1)
                                     (FBS.create_errorEvent u2))])) as Hasked.
  { subst asked. unfold FBS.create, Bus.run. cbn [foldl Bus.run_op].
    unfold Bus.once at 2. cbn [Bus.listeners Bus.log].
    replace (L !! FBS.create_busEvent u1) with (@None (list Bus.handler)).
    cbn [default app].
    unfold Bus.once. cbn [Bus.listeners Bus.log].
    rewrite lookup_insert_ne by done.
    replace (L !! FBS.create_errorEvent u2) with (@None (list Bus.handler)).
    cbn [default app].
    rewrite emit_no_listener; [done |].
    cbn [Bus.listeners]. by rewrite !lookup_insert_ne. }
  assert (loaded
          = Bus.mkState (delete (FBS.create_busEvent u1) M)
              (l ++ [("ctrl.config.fbs",
                      PConfigRequest (FBS.create_busEvent u1)
                                     (FBS.create_errorEvent u2));
                     (FBS.create_busEvent u1, cfg)])) as Hloaded.
  { subst loaded. rewrite Hasked.
    rewrite (emit_silent_listener _ _ _ _ _ Bus.CreateLoaded); [| | done].
    - cbn [Bus.listeners Bus.log]. by rewrite <- app_assoc.
    - cbn [Bus.listeners]. subst M.
      by rewrite lookup_insert_ne, lookup_insert_eq. }
  assert (forall k, k <> FBS.create_errorEvent u2 -> L !! k = None ->
                    delete (FBS.create_busEvent u1) M !! k = None) as Hfree.
  { intros k Hk HLk. subst M.
    destruct (decide (FBS.create_busEvent u1 = k)) as [<- | Hne];
      [by rewrite lookup_delete_eq |].
    by rewrite lookup_delete_ne, !lookup_insert_ne. }
  subst served. rewrite Hserve, Hloaded.
  rewrite run_unheard.
  - cbn [Bus.listeners Bus.log]. split; [by rewrite <- app_assoc |].
    subst M. split.
    + by rewrite lookup_delete_ne, lookup_insert_eq.
    + by rewrite lookup_delete_eq.
  - cbn [Bus.listeners]. apply Forall_app. split.
    + eapply Forall_impl; [apply facade_reports_names |].
      intros o [q ->]. by apply Hfree.
    + constructor; [| constructor]. subst answer. by apply Hfree.
Qed.

Lemma resolved_request_on_the_bus_witness :
  handle "k1" "k2" 1000 1001 (FBS.Resolved fbs1)
         (Renew checkout1 None (JStr "renewed"))
  = [ Bus.Once "fbs.config.loadedk1" Bus.CreateLoaded;
      Bus.Once "fbs.config.errork2" Bus.CreateError;
      Bus.Emit "ctrl.config.fbs"
               (PConfigRequest "fbs.config.loadedk1" "fbs.config.errork2");
      Bus.Emit "fbs.action.result" (PActionResult "Renew" false);
      Bus.Emit "fbs.checkout.success.a" (PResult 1001 (JStr "renewed")) ]
  /\ Bus.listeners
       (Bus.run 1 1001
          (serve 1000 1001 (FBS.Resolved fbs1)
                 (Renew checkout1 None (JStr "renewed")))
          (Bus.emit 1 1000 "fbs.config.loadedk1" PStored
             (Bus.run 1 1000 (FBS.create "k1" "k2") Bus.empty)))
     !! "fbs.config.errork2" = Some [Bus.CreateError].
Proof.
  destruct (resolved_request_on_the_bus "k1" "k2" 0 1000 1001 1000 fbs1
              (Renew checkout1 None (JStr "renewed")) PStored Bus.empty
              eq_refl) as (Hops & _ & Hleft & _).
  - repeat constructor.
  - discriminate.
  - split; [exact Hops | exact Hleft].
Defined.

End with_create.
